(** * Slack View Customizer: the content script, embedded and verified

    The repository ships one content script in two versions:
    [src/content.js] (three toggles: top, bottom, left, plus the loop that
    positions the left button) and [src/unnamed/part_000] (two toggles: top
    and bottom).  Storage helpers, [applyTopState], [applyBottomState] and the
    button constructors are the same text in both files and are embedded
    once; [init] and the keydown listener differ and live in one module per
    file.

    JavaScript is embedded as a state-and-exception monad over a [world]
    that holds the part of the browser the script talks to: the class list
    of [document.body], an element store with the children of the body, the
    elements of the host page that the selectors look for, the extension
    store, page-local storage, the console and the two timers' variables. *)

From Stdlib Require Import Floats ZArith.
From stdpp Require Import gmap strings list.

(** ** Constants *)

Inductive flag := Top | Bottom | Left.

Definition STORAGE_KEY_TOP : string := "slack-vc-top-collapsed".
Definition STORAGE_KEY_BOTTOM : string := "slack-vc-bottom-collapsed".
Definition STORAGE_KEY_LEFT : string := "slack-vc-left-collapsed".
Definition CLASS_TOP : string := "slack-vc--top-collapsed".
Definition CLASS_BOTTOM : string := "slack-vc--bottom-collapsed".
Definition CLASS_LEFT : string := "slack-vc--left-collapsed".
Definition BTN_TOP_ID : string := "slack-vc-toggle-btn-top".
Definition BTN_BOTTOM_ID : string := "slack-vc-toggle-btn-bottom".
Definition BTN_LEFT_ID : string := "slack-vc-toggle-btn-left".

(** The quotation mark of the SVG attributes, U+0022. *)
Definition dq : string := String (Ascii.ascii_of_nat 34) EmptyString.

(** The SVG text shared by the four icons, around the path data [d]. *)
Definition svg_icon (d : string) : string :=
  "
    <svg viewBox=" +:+ dq +:+ "0 0 16 16" +:+ dq +:+ " fill=" +:+ dq +:+ "none" +:+ dq
  +:+ " xmlns=" +:+ dq +:+ "http://www.w3.org/2000/svg" +:+ dq +:+ ">
      <path d=" +:+ dq +:+ d +:+ dq +:+ " stroke=" +:+ dq +:+ "currentColor" +:+ dq
  +:+ " stroke-width=" +:+ dq +:+ "1.8" +:+ dq +:+ "
            stroke-linecap=" +:+ dq +:+ "round" +:+ dq
  +:+ " stroke-linejoin=" +:+ dq +:+ "round" +:+ dq +:+ "/>
    </svg>".

Definition ICON_UP : string := svg_icon "M3 10L8 5L13 10".
Definition ICON_DOWN : string := svg_icon "M3 6L8 11L13 6".
Definition ICON_LEFT : string := svg_icon "M10 3L5 8L10 13".
Definition ICON_RIGHT : string := svg_icon "M6 3L11 8L6 13".

(** ** The browser state *)

(** Values the extension store can hold (it stores JSON). *)
Inductive js_value :=
  | JSUndefined
  | JSNull
  | JSBool (b : bool)
  | JSNumber (x : float)
  | JSString (s : string).

(** [a === b] on these values. *)
Definition strict_equals (a b : js_value) : bool :=
  match a, b with
  | JSUndefined, JSUndefined => true
  | JSNull, JSNull => true
  | JSBool x, JSBool y => Bool.eqb x y
  | JSNumber x, JSNumber y => PrimFloat.eqb x y
  | JSString x, JSString y => bool_decide (x = y)
  | _, _ => false
  end.

(** [String(value)] for a boolean. *)
Definition String_of_bool (b : bool) : string := if b then "true" else "false".

(** An element of the store.  [el_listeners] are the click listeners added
    with [addEventListener]; the only listeners the script adds are the three
    closures of the button constructors, each bound to the button it was
    created for, so a listener is named by its flag. *)
Record element := Element {
  el_tagName : string;
  el_id : string;
  el_className : string;
  el_type : string;
  el_innerHTML : string;
  el_attributes : gmap string string;
  el_style : gmap string string;
  el_listeners : list flag
}.

(** An element of the host page, as the selectors and the positioning loop
    see it: its classes and the left and right edges of its bounding box. *)
Record host_element := HostElement {
  h_classList : list string;
  h_left : float;
  h_right : float
}.

(** What the polling timer of [init] keeps between ticks: the array the
    storage reads resolved to and the elapsed time in milliseconds. *)
Record poll_state := PollState {
  collapsedStates : list bool;
  elapsed : Z
}.

(** The world.  References to elements are indices into [nodes].
    - [body_classList]: the tokens of [document.body.classList], in order;
    - [body_children]: the children of the body the script can find by id;
    - [nodes]: every element created so far, attached or not;
    - [host_page]: the elements of the host page;
    - [chrome_throws]: calls into [chrome.storage.local] throw;
    - [chrome_lastError]: what [chrome.runtime.lastError] holds in the
      callback of a storage call, when the call has failed;
    - [chrome_local]: the entries of the extension store;
    - [localStorage]: the entries of page-local storage, or [None] when the
      page is denied access to it;
    - [console]: the messages logged so far;
    - [lastLeftPos]: the variable of that name in [content.js];
    - [waitForSlack]: the polling timer of [init], [None] when it is not
      running. *)
Record world := World {
  body_classList : list string;
  body_children : list nat;
  nodes : list element;
  host_page : list host_element;
  chrome_throws : bool;
  chrome_lastError : option string;
  chrome_local : gmap string js_value;
  localStorage : option (gmap string string);
  console : list string;
  lastLeftPos : string;
  waitForSlack : option poll_state
}.

Definition set_body_classList (l : list string) (w : world) : world :=
  World l (body_children w) (nodes w) (host_page w) (chrome_throws w)
    (chrome_lastError w) (chrome_local w) (localStorage w) (console w)
    (lastLeftPos w) (waitForSlack w).
Definition set_body_children (l : list nat) (w : world) : world :=
  World (body_classList w) l (nodes w) (host_page w) (chrome_throws w)
    (chrome_lastError w) (chrome_local w) (localStorage w) (console w)
    (lastLeftPos w) (waitForSlack w).
Definition set_nodes (l : list element) (w : world) : world :=
  World (body_classList w) (body_children w) l (host_page w) (chrome_throws w)
    (chrome_lastError w) (chrome_local w) (localStorage w) (console w)
    (lastLeftPos w) (waitForSlack w).
Definition set_host_page (l : list host_element) (w : world) : world :=
  World (body_classList w) (body_children w) (nodes w) l (chrome_throws w)
    (chrome_lastError w) (chrome_local w) (localStorage w) (console w)
    (lastLeftPos w) (waitForSlack w).
Definition set_chrome_local (m : gmap string js_value) (w : world) : world :=
  World (body_classList w) (body_children w) (nodes w) (host_page w)
    (chrome_throws w) (chrome_lastError w) m (localStorage w) (console w)
    (lastLeftPos w) (waitForSlack w).
Definition set_localStorage (m : option (gmap string string)) (w : world) : world :=
  World (body_classList w) (body_children w) (nodes w) (host_page w)
    (chrome_throws w) (chrome_lastError w) (chrome_local w) m (console w)
    (lastLeftPos w) (waitForSlack w).
Definition set_console (l : list string) (w : world) : world :=
  World (body_classList w) (body_children w) (nodes w) (host_page w)
    (chrome_throws w) (chrome_lastError w) (chrome_local w) (localStorage w) l
    (lastLeftPos w) (waitForSlack w).
Definition set_lastLeftPos (s : string) (w : world) : world :=
  World (body_classList w) (body_children w) (nodes w) (host_page w)
    (chrome_throws w) (chrome_lastError w) (chrome_local w) (localStorage w)
    (console w) s (waitForSlack w).
Definition set_waitForSlack (t : option poll_state) (w : world) : world :=
  World (body_classList w) (body_children w) (nodes w) (host_page w)
    (chrome_throws w) (chrome_lastError w) (chrome_local w) (localStorage w)
    (console w) (lastLeftPos w) t.

(** ** The monad: state and exceptions *)

Inductive completion (A : Type) :=
  | Normal (a : A) (w : world)
  | Throw (exn : string) (w : world).
Arguments Normal {A} a w.
Arguments Throw {A} exn w.

Definition js (A : Type) : Type := world -> completion A.

Definition ret {A} (a : A) : js A := fun w => Normal a w.
Definition throw {A} (exn : string) : js A := fun w => Throw exn w.
Definition bind {A B} (m : js A) (k : A -> js B) : js B :=
  fun w => match m w with
           | Normal a w' => k a w'
           | Throw e w' => Throw e w'
           end.
(** [try { m } catch (e) { h e }] *)
Definition try_catch {A} (m : js A) (h : string -> js A) : js A :=
  fun w => match m w with
           | Normal a w' => Normal a w'
           | Throw e w' => h e w'
           end.
Definition get {A} (f : world -> A) : js A := fun w => Normal (f w) w.
Definition modify (f : world -> world) : js unit := fun w => Normal tt (f w).

Declare Scope js_scope.
Delimit Scope js_scope with js.
Notation "x <- m ;; k" := (bind m (fun x => k))
  (at level 100, m at next level, right associativity) : js_scope.
Notation "m ;;; k" := (bind m (fun _ => k))
  (at level 100, right associativity) : js_scope.
Local Open Scope js_scope.

(** The world a completion ends in. *)
Definition final {A} (c : completion A) : world :=
  match c with Normal _ w => w | Throw _ w => w end.

(** A promise that has settled. *)
Inductive promise (A : Type) :=
  | Resolved (a : A)
  | Rejected (reason : string).
Arguments Resolved {A} a.
Arguments Rejected {A} reason.

(** [new Promise((resolve) => { executor })]: the value the executor hands
    to [resolve] is its result here; an exception that escapes the executor
    rejects the promise and does not reach the caller. *)
Definition new_Promise {A} (executor : js A) : js (promise A) :=
  fun w => match executor w with
           | Normal a w' => Normal (Resolved a) w'
           | Throw e w' => Normal (Rejected e) w'
           end.

(** [await Promise.all(ps)]: the array of the values, or the first rejection
    thrown at the [await]. *)
Fixpoint await_all {A} (ps : list (promise A)) : js (list A) :=
  match ps with
  | [] => ret []
  | Resolved a :: ps' => l <- await_all ps' ;; ret (a :: l)
  | Rejected e :: _ => throw e
  end.

(** ** DOM primitives *)

Definition contains (cls : string) (l : list string) : bool :=
  bool_decide (cls ∈ l).

(** [document.body.classList.contains(cls)] *)
Definition classList_contains (cls : string) : js bool :=
  get (fun w => contains cls (body_classList w)).

(** [DOMTokenList.toggle(token, force)] on a token list: with [force] true
    the token is added at the end unless present, with [force] false it is
    removed. *)
Definition toggle_token (cls : string) (force : bool) (l : list string) : list string :=
  if force then (if contains cls l then l else l ++ [cls])
  else filter (fun c => c ≠ cls) l.

(** [document.body.classList.toggle(cls, force)] *)
Definition classList_toggle (cls : string) (force : bool) : js bool :=
  modify (fun w => set_body_classList (toggle_token cls force (body_classList w)) w) ;;;
  ret force.

Definition has_id (i : string) (w : world) (r : nat) : bool :=
  match nodes w !! r with
  | Some e => bool_decide (el_id e = i)
  | None => false
  end.

(** The first child of the body, in document order, with the id [i]. *)
Definition element_by_id (i : string) (w : world) : option nat :=
  List.find (has_id i w) (body_children w).

(** [document.getElementById(i)] *)
Definition getElementById (i : string) : js (option nat) :=
  get (element_by_id i).

(** [document.querySelector('.' + cls)]: the first host element with the
    class.  The script's own buttons and the body carry none of the classes
    the script asks for. *)
Definition querySelector (cls : string) : js (option host_element) :=
  get (fun w => List.find (fun h => contains cls (h_classList h)) (host_page w)).

(** [document.createElement(tag)]: a fresh, detached element. *)
Definition createElement (tag : string) : js nat :=
  fun w => Normal (length (nodes w))
             (set_nodes (nodes w ++ [Element tag "" "" "" "" ∅ ∅ []]) w).

(** [document.body.appendChild(node)]: the node becomes the last child; a
    node that is already a child is moved. *)
Definition appendChild (r : nat) : js unit :=
  modify (fun w => set_body_children (filter (fun x => x ≠ r) (body_children w) ++ [r]) w).

(** A property write or method call on [btn]: a [TypeError] when [btn] is
    null, the update of the element otherwise. *)
Definition update_element (btn : option nat) (f : element -> element) : js unit :=
  match btn with
  | None => throw "TypeError: Cannot set properties of null"
  | Some r => modify (fun w => set_nodes (alter f r (nodes w)) w)
  end.

Definition set_id (btn : option nat) (v : string) : js unit :=
  update_element btn (fun e =>
    Element (el_tagName e) v (el_className e) (el_type e) (el_innerHTML e)
      (el_attributes e) (el_style e) (el_listeners e)).
Definition set_className (btn : option nat) (v : string) : js unit :=
  update_element btn (fun e =>
    Element (el_tagName e) (el_id e) v (el_type e) (el_innerHTML e)
      (el_attributes e) (el_style e) (el_listeners e)).
Definition set_type (btn : option nat) (v : string) : js unit :=
  update_element btn (fun e =>
    Element (el_tagName e) (el_id e) (el_className e) v (el_innerHTML e)
      (el_attributes e) (el_style e) (el_listeners e)).
Definition with_innerHTML (v : string) (e : element) : element :=
  Element (el_tagName e) (el_id e) (el_className e) (el_type e) v
    (el_attributes e) (el_style e) (el_listeners e).
Definition with_attribute (k v : string) (e : element) : element :=
  Element (el_tagName e) (el_id e) (el_className e) (el_type e) (el_innerHTML e)
    (<[k := v]> (el_attributes e)) (el_style e) (el_listeners e).
Definition with_style (k v : string) (e : element) : element :=
  Element (el_tagName e) (el_id e) (el_className e) (el_type e) (el_innerHTML e)
    (el_attributes e) (<[k := v]> (el_style e)) (el_listeners e).
Definition set_innerHTML (btn : option nat) (v : string) : js unit :=
  update_element btn (with_innerHTML v).
Definition setAttribute (btn : option nat) (k v : string) : js unit :=
  update_element btn (with_attribute k v).
Definition set_style (btn : option nat) (k v : string) : js unit :=
  update_element btn (with_style k v).
(** [btn.addEventListener('click', listener)] *)
Definition addEventListener_click (btn : option nat) (l : flag) : js unit :=
  update_element btn (fun e =>
    Element (el_tagName e) (el_id e) (el_className e) (el_type e) (el_innerHTML e)
      (el_attributes e) (el_style e) (el_listeners e ++ [l])).

(** [console.warn(msg)] *)
Definition console_warn (msg : string) : js unit :=
  modify (fun w => set_console (console w ++ [msg]) w).

(** ** Storage primitives *)

(** [chrome.storage.local.get([key], callback)].  The call throws when the
    extension API is unusable (no [chrome.storage], or an invalidated
    extension context); otherwise the callback runs with the object that
    holds the entry of [key], if there is one.  The callback is run at once:
    nothing else in the script observes the time in between. *)
Definition chrome_storage_local_get {A} (key : string)
    (callback : gmap string js_value -> js A) : js A :=
  fun w =>
    if chrome_throws w then Throw "Error: Extension context invalidated." w
    else callback (match chrome_local w !! key with
                   | Some v => {[ key := v ]}
                   | None => ∅
                   end) w.

(** [chrome.storage.local.set({ [key]: value }, callback)]: the entry is
    written unless the call fails, and a failed call leaves
    [chrome.runtime.lastError] set for the callback. *)
Definition chrome_storage_local_set {A} (key : string) (value : js_value)
    (callback : js A) : js A :=
  fun w =>
    if chrome_throws w then Throw "Error: Extension context invalidated." w
    else callback (match chrome_lastError w with
                   | Some _ => w
                   | None => set_chrome_local (<[key := value]> (chrome_local w)) w
                   end).

(** [chrome.runtime.lastError], read as a condition. *)
Definition chrome_runtime_lastError : js bool :=
  get (fun w => bool_decide (is_Some (chrome_lastError w))).

(** [result[key]] *)
Definition property (result : gmap string js_value) (key : string) : js_value :=
  default JSUndefined (result !! key).

(** [localStorage.getItem(key)]: the string, or null.  Reading
    [localStorage] throws a [SecurityError] in a document that is denied
    storage; that is [localStorage w = None]. *)
Definition localStorage_getItem (key : string) : js (option string) :=
  fun w => match localStorage w with
           | Some m => Normal (m !! key) w
           | None => Throw "SecurityError: access to localStorage is denied" w
           end.

(** [localStorage.setItem(key, value)] *)
Definition localStorage_setItem (key value : string) : js unit :=
  fun w => match localStorage w with
           | Some m => Normal tt (set_localStorage (Some (<[key := value]> m)) w)
           | None => Throw "SecurityError: access to localStorage is denied" w
           end.

(** ** Storage helpers (both files) *)

Definition getStoredState (key : string) : js (promise bool) :=
  new_Promise
    (try_catch
       (chrome_storage_local_get key (fun result =>
          err <- chrome_runtime_lastError ;;
          if err : bool then
            console_warn "[Slack VC] storage read error:" ;;;
            ret false
          else
            ret (strict_equals (property result key) (JSBool true))))
       (fun _e =>
          item <- localStorage_getItem key ;;
          ret (bool_decide (item = Some "true")))).

Definition setStoredState (key : string) (value : bool) : js unit :=
  try_catch
    (chrome_storage_local_set key (JSBool value)
       (err <- chrome_runtime_lastError ;;
        if err : bool then console_warn "[Slack VC] storage write error:"
        else ret tt))
    (fun _e => localStorage_setItem key (String_of_bool value)).

(** ** State application *)

Definition applyTopState (collapsed : bool) (btn : option nat) : js unit :=
  classList_toggle CLASS_TOP collapsed ;;;
  match btn with
  | Some _ =>
      set_innerHTML btn (if collapsed then ICON_DOWN else ICON_UP) ;;;
      let label := if collapsed then "ヘッダーを表示" else "ヘッダーを非表示" in
      setAttribute btn "data-tooltip" label ;;;
      setAttribute btn "aria-label" label
  | None => ret tt
  end.

Definition applyBottomState (collapsed : bool) (btn : option nat) : js unit :=
  classList_toggle CLASS_BOTTOM collapsed ;;;
  match btn with
  | Some _ =>
      set_innerHTML btn (if collapsed then ICON_UP else ICON_DOWN) ;;;
      let label := if collapsed then "入力エリアを表示" else "入力エリアを非表示" in
      setAttribute btn "data-tooltip" label ;;;
      setAttribute btn "aria-label" label
  | None => ret tt
  end.

(** Only in [content.js]. *)
Definition applyLeftState (collapsed : bool) (btn : option nat) : js unit :=
  classList_toggle CLASS_LEFT collapsed ;;;
  match btn with
  | Some _ =>
      set_innerHTML btn (if collapsed then ICON_RIGHT else ICON_LEFT) ;;;
      let label := if collapsed then "サイドバーを表示" else "サイドバーを非表示" in
      setAttribute btn "data-tooltip" label ;;;
      setAttribute btn "aria-label" label ;;;
      set_style btn "top" "50%" ;;;
      set_style btn "transform" "translateY(-50%)"
  | None => ret tt
  end.

(** ** Click listeners and button creation *)

(** The listener [createTopButton] adds; [btn] is the button of the
    enclosing call. *)
Definition onTopClick (btn : option nat) : js unit :=
  nowCollapsed <- classList_contains CLASS_TOP ;;
  let newState := negb nowCollapsed in
  applyTopState newState btn ;;;
  setStoredState STORAGE_KEY_TOP newState.

Definition onBottomClick (btn : option nat) : js unit :=
  nowCollapsed <- classList_contains CLASS_BOTTOM ;;
  let newState := negb nowCollapsed in
  applyBottomState newState btn ;;;
  setStoredState STORAGE_KEY_BOTTOM newState.

Definition onLeftClick (btn : option nat) : js unit :=
  nowCollapsed <- classList_contains CLASS_LEFT ;;
  let newState := negb nowCollapsed in
  applyLeftState newState btn ;;;
  setStoredState STORAGE_KEY_LEFT newState.

Definition createTopButton (initialCollapsed : bool) : js nat :=
  btn <- createElement "button" ;;
  set_id (Some btn) BTN_TOP_ID ;;;
  set_className (Some btn) "slack-vc-toggle-btn slack-vc-toggle-btn--top" ;;;
  set_type (Some btn) "button" ;;;
  applyTopState initialCollapsed (Some btn) ;;;
  addEventListener_click (Some btn) Top ;;;
  ret btn.

Definition createBottomButton (initialCollapsed : bool) : js nat :=
  btn <- createElement "button" ;;
  set_id (Some btn) BTN_BOTTOM_ID ;;;
  set_className (Some btn) "slack-vc-toggle-btn slack-vc-toggle-btn--bottom" ;;;
  set_type (Some btn) "button" ;;;
  applyBottomState initialCollapsed (Some btn) ;;;
  addEventListener_click (Some btn) Bottom ;;;
  ret btn.

Definition createLeftButton (initialCollapsed : bool) : js nat :=
  btn <- createElement "button" ;;
  set_id (Some btn) BTN_LEFT_ID ;;;
  set_className (Some btn) "slack-vc-toggle-btn slack-vc-toggle-btn--left" ;;;
  set_type (Some btn) "button" ;;;
  applyLeftState initialCollapsed (Some btn) ;;;
  addEventListener_click (Some btn) Left ;;;
  ret btn.

(** ** Event dispatch *)

(** The listener named [f], bound to the element [r]. *)
Definition listener (f : flag) (r : nat) : js unit :=
  match f with
  | Top => onTopClick (Some r)
  | Bottom => onBottomClick (Some r)
  | Left => onLeftClick (Some r)
  end.

(** Running a callback from the event loop: an exception that escapes it is
    reported on the console and goes no further. *)
Definition run_callback {A} (m : js A) (w : world) : world :=
  match m w with
  | Normal _ w' => w'
  | Throw e w' => set_console (console w' ++ ["Uncaught " +:+ e]) w'
  end.

(** A click on the element [r]: its click listeners run in the order they
    were added. *)
Definition dispatch_click (r : nat) (w : world) : world :=
  match nodes w !! r with
  | Some e => foldl (fun w' f => run_callback (listener f r) w') w (el_listeners e)
  | None => w
  end.

(** [btn.click()] *)
Definition element_click (btn : option nat) : js unit :=
  match btn with
  | None => throw "TypeError: Cannot read properties of null"
  | Some r => modify (dispatch_click r)
  end.

(** ** Keyboard events *)

Record KeyboardEvent := KeyEvent {
  altKey : bool;
  shiftKey : bool;
  key : string;
  defaultPrevented : bool
}.

Definition preventDefault (e : KeyboardEvent) : KeyboardEvent :=
  KeyEvent (altKey e) (shiftKey e) (key e) true.

Definition lower_ascii (c : Ascii.ascii) : Ascii.ascii :=
  let n := Ascii.nat_of_ascii c in
  if ((65 <=? n) && (n <=? 90))%nat then Ascii.ascii_of_nat (n + 32) else c.

(** [s.toLowerCase()], on the letters A to Z; other bytes stay.  No
    character outside ASCII has h, j or l as its lower case, so on the
    comparisons of the keydown listener this agrees with JavaScript. *)
Fixpoint toLowerCase (s : string) : string :=
  match s with
  | EmptyString => EmptyString
  | String c s' => String (lower_ascii c) (toLowerCase s')
  end.

Definition maxWait : Z := 15000%Z.
Definition interval : Z := 300%Z.

(** [a || b] on two selector queries. *)
Definition querySelector_or (a b : string) : js (option host_element) :=
  x <- querySelector a ;;
  match x with
  | Some h => ret (Some h)
  | None => querySelector b
  end.

(** ** [src/content.js]: three toggles *)

Module ContentJs.

(** The body of [init] up to [setInterval]: the guard, the three reads
    awaited together, and the start of the polling timer with
    [elapsed = 0]. *)
Definition init : js unit :=
  existing <- getElementById BTN_TOP_ID ;;
  match existing with
  | Some _ => ret tt
  | None =>
      p1 <- getStoredState STORAGE_KEY_TOP ;;
      p2 <- getStoredState STORAGE_KEY_BOTTOM ;;
      p3 <- getStoredState STORAGE_KEY_LEFT ;;
      states <- await_all [p1; p2; p3] ;;
      modify (set_waitForSlack (Some (PollState states 0%Z)))
  end.

(** One tick of the [waitForSlack] timer.  A cleared timer does not fire.
    [init] always stores an array of three states. *)
Definition waitForSlack_tick : js unit :=
  timer <- get waitForSlack ;;
  match timer with
  | None => ret tt
  | Some p =>
      let topCollapsed := nth 0 (collapsedStates p) false in
      let bottomCollapsed := nth 1 (collapsedStates p) false in
      let leftCollapsed := nth 2 (collapsedStates p) false in
      let elapsed' := (elapsed p + interval)%Z in
      modify (set_waitForSlack (Some (PollState (collapsedStates p) elapsed'))) ;;;
      container <- querySelector_or "p-ia4_top_nav" "p-client_container" ;;
      if bool_decide (is_Some container) || (maxWait <=? elapsed')%Z then
        modify (set_waitForSlack None) ;;;
        topBtn <- createTopButton topCollapsed ;;
        bottomBtn <- createBottomButton bottomCollapsed ;;
        leftBtn <- createLeftButton leftCollapsed ;;
        appendChild topBtn ;;;
        appendChild bottomBtn ;;;
        appendChild leftBtn ;;;
        applyTopState topCollapsed (Some topBtn) ;;;
        applyBottomState bottomCollapsed (Some bottomBtn) ;;;
        applyLeftState leftCollapsed (Some leftBtn) ;;;
        if negb (bool_decide (is_Some container)) && (maxWait <=? elapsed')%Z then
          console_warn "[Slack VC] Timed out waiting for Slack UI. Buttons injected anyway."
        else ret tt
      else ret tt
  end.

(** The keydown listener; the event comes back with [defaultPrevented]
    as the listener left it. *)
Definition keydown (e : KeyboardEvent) : js KeyboardEvent :=
  if altKey e && shiftKey e then
    if bool_decide (toLowerCase (key e) = "h") then
      let e' := preventDefault e in
      btn <- getElementById BTN_TOP_ID ;;
      match btn with
      | Some _ => element_click btn
      | None => ret tt
      end ;;;
      ret e'
    else if bool_decide (toLowerCase (key e) = "j") then
      let e' := preventDefault e in
      btn <- getElementById BTN_BOTTOM_ID ;;
      match btn with
      | Some _ => element_click btn
      | None => ret tt
      end ;;;
      ret e'
    else if bool_decide (toLowerCase (key e) = "l") then
      let e' := preventDefault e in
      btn <- getElementById BTN_LEFT_ID ;;
      match btn with
      | Some _ => element_click btn
      | None => ret tt
      end ;;;
      ret e'
    else ret e
  else ret e.

(** The second branch of the positioning loop when the sidebar is shown:
    [else if (sidebar) { ... }], with [targetLeft] left at 0 otherwise. *)
Definition sidebarTarget (sidebar : option host_element) : float :=
  match sidebar with
  | Some s => PrimFloat.sub (h_right s) 14%float
  | None => 0%float
  end.

(** The value of [targetLeft] when the loop reaches [if (targetLeft > 0)]. *)
Definition targetLeft : js float :=
  collapsed <- classList_contains CLASS_LEFT ;;
  if negb collapsed then
    resizer <- querySelector "p-ia4_client__resizer--sidebar" ;;
    sidebar <- querySelector_or "p-view_contents--sidebar" "p-ia4_client__sidebar" ;;
    match resizer with
    | Some r =>
        if PrimFloat.ltb 0%float (h_left r)
        then ret (PrimFloat.sub (PrimFloat.add (h_left r) 4%float) 14%float)
        else ret (sidebarTarget sidebar)
    | None => ret (sidebarTarget sidebar)
    end
  else
    tabRail <- querySelector_or "p-tab_rail" "p-ia4_tab_rail" ;;
    match tabRail with
    | Some t => ret (PrimFloat.sub (h_right t) 14%float)
    | None => ret 0%float
    end.

Section Positioning.
(** The conversion of a number to a string, as in [targetLeft + 'px']. *)
Variable Number_toString : float -> string.

(** One tick of the left-button positioning timer. *)
Definition positionLeftButton : js unit :=
  btn <- getElementById BTN_LEFT_ID ;;
  match btn with
  | None => ret tt
  | Some _ =>
      target <- targetLeft ;;
      if PrimFloat.ltb 0%float target then
        let newPos := Number_toString target +:+ "px" in
        last <- get lastLeftPos ;;
        if bool_decide (newPos ≠ last) then
          set_style btn "left" newPos ;;;
          modify (set_lastLeftPos newPos)
        else ret tt
      else ret tt
  end.
End Positioning.

End ContentJs.

(** ** [src/unnamed/part_000]: two toggles *)

Module Part000.

Definition init : js unit :=
  existing <- getElementById BTN_TOP_ID ;;
  match existing with
  | Some _ => ret tt
  | None =>
      p1 <- getStoredState STORAGE_KEY_TOP ;;
      p2 <- getStoredState STORAGE_KEY_BOTTOM ;;
      states <- await_all [p1; p2] ;;
      modify (set_waitForSlack (Some (PollState states 0%Z)))
  end.

(** [init] always stores an array of two states. *)
Definition waitForSlack_tick : js unit :=
  timer <- get waitForSlack ;;
  match timer with
  | None => ret tt
  | Some p =>
      let topCollapsed := nth 0 (collapsedStates p) false in
      let bottomCollapsed := nth 1 (collapsedStates p) false in
      let elapsed' := (elapsed p + interval)%Z in
      modify (set_waitForSlack (Some (PollState (collapsedStates p) elapsed'))) ;;;
      container <- querySelector_or "p-ia4_top_nav" "p-client_container" ;;
      if bool_decide (is_Some container) || (maxWait <=? elapsed')%Z then
        modify (set_waitForSlack None) ;;;
        topBtn <- createTopButton topCollapsed ;;
        bottomBtn <- createBottomButton bottomCollapsed ;;
        appendChild topBtn ;;;
        appendChild bottomBtn ;;;
        applyTopState topCollapsed (Some topBtn) ;;;
        applyBottomState bottomCollapsed (Some bottomBtn) ;;;
        if negb (bool_decide (is_Some container)) && (maxWait <=? elapsed')%Z then
          console_warn "[Slack VC] Timed out waiting for Slack UI. Buttons injected anyway."
        else ret tt
      else ret tt
  end.

Definition keydown (e : KeyboardEvent) : js KeyboardEvent :=
  if altKey e && shiftKey e then
    if bool_decide (toLowerCase (key e) = "h") then
      let e' := preventDefault e in
      btn <- getElementById BTN_TOP_ID ;;
      match btn with
      | Some _ => element_click btn
      | None => ret tt
      end ;;;
      ret e'
    else if bool_decide (toLowerCase (key e) = "j") then
      let e' := preventDefault e in
      btn <- getElementById BTN_BOTTOM_ID ;;
      match btn with
      | Some _ => element_click btn
      | None => ret tt
      end ;;;
      ret e'
    else ret e
  else ret e.

End Part000.

(** ** The two versions side by side *)

Inductive variant := TwoToggle | ThreeToggle.

(** The flags a version has a control for. *)
Definition flags (v : variant) : list flag :=
  match v with
  | TwoToggle => [Top; Bottom]
  | ThreeToggle => [Top; Bottom; Left]
  end.

Definition init (v : variant) : js unit :=
  match v with
  | TwoToggle => Part000.init
  | ThreeToggle => ContentJs.init
  end.

Definition waitForSlack_tick (v : variant) : js unit :=
  match v with
  | TwoToggle => Part000.waitForSlack_tick
  | ThreeToggle => ContentJs.waitForSlack_tick
  end.

Definition keydown (v : variant) : KeyboardEvent -> js KeyboardEvent :=
  match v with
  | TwoToggle => Part000.keydown
  | ThreeToggle => ContentJs.keydown
  end.

Definition STORAGE_KEY (f : flag) : string :=
  match f with
  | Top => STORAGE_KEY_TOP
  | Bottom => STORAGE_KEY_BOTTOM
  | Left => STORAGE_KEY_LEFT
  end.

Definition CLASS (f : flag) : string :=
  match f with
  | Top => CLASS_TOP
  | Bottom => CLASS_BOTTOM
  | Left => CLASS_LEFT
  end.

Definition BTN_ID (f : flag) : string :=
  match f with
  | Top => BTN_TOP_ID
  | Bottom => BTN_BOTTOM_ID
  | Left => BTN_LEFT_ID
  end.

Definition applyState (f : flag) : bool -> option nat -> js unit :=
  match f with
  | Top => applyTopState
  | Bottom => applyBottomState
  | Left => applyLeftState
  end.

(** The letter of a flag's shortcut, as the listener compares it, and its
    capital. *)
Definition shortcut (f : flag) : string :=
  match f with Top => "h" | Bottom => "j" | Left => "l" end.
Definition shortcut_capital (f : flag) : string :=
  match f with Top => "H" | Bottom => "J" | Left => "L" end.

(** What [applyState f collapsed btn] writes on the button. *)
Definition icon (f : flag) (collapsed : bool) : string :=
  match f with
  | Top => if collapsed then ICON_DOWN else ICON_UP
  | Bottom => if collapsed then ICON_UP else ICON_DOWN
  | Left => if collapsed then ICON_RIGHT else ICON_LEFT
  end.
Definition label (f : flag) (collapsed : bool) : string :=
  match f with
  | Top => if collapsed then "ヘッダーを表示" else "ヘッダーを非表示"
  | Bottom => if collapsed then "入力エリアを表示" else "入力エリアを非表示"
  | Left => if collapsed then "サイドバーを表示" else "サイドバーを非表示"
  end.

(** ** Running the script *)

(** The host page changes between two ticks of the polling timer; each
    tick sees the host elements of its moment. *)
Fixpoint poll (v : variant) (pages : list (list host_element)) (w : world) : world :=
  match pages with
  | [] => w
  | page :: pages' =>
      poll v pages' (run_callback (waitForSlack_tick v) (set_host_page page w))
  end.

(** [init] called from the event loop (at load or on [DOMContentLoaded]). *)
Definition run_init (v : variant) (w : world) : world := run_callback (init v) w.

(** A keydown event delivered to the listener. *)
Definition dispatch_keydown (v : variant) (e : KeyboardEvent) (w : world) : world :=
  run_callback (keydown v e) w.

(** Observations on a world. *)
Definition body_has (cls : string) (w : world) : bool :=
  contains cls (body_classList w).
Definition innerHTML_of (r : nat) (w : world) : option string :=
  el_innerHTML <$> nodes w !! r.
Definition attribute_of (r : nat) (k : string) (w : world) : option string :=
  nodes w !! r ≫= fun e => el_attributes e !! k.
Definition style_of (r : nat) (k : string) (w : world) : option string :=
  nodes w !! r ≫= fun e => el_style e !! k.
(** The children of the body that carry the id [i]. *)
Definition elements_with_id (i : string) (w : world) : list nat :=
  List.filter (has_id i w) (body_children w).

(** ** Definitions used to state the properties *)

(** What the button branch of [applyState f collapsed btn] makes of the
    button. *)
Definition painted (f : flag) (collapsed : bool) (e : element) : element :=
  let e' := with_attribute "aria-label" (label f collapsed)
              (with_attribute "data-tooltip" (label f collapsed)
                 (with_innerHTML (icon f collapsed) e)) in
  match f with
  | Left => with_style "transform" "translateY(-50%)" (with_style "top" "50%" e')
  | _ => e'
  end.

(** The world [applyState f collapsed btn] ends in. *)
Definition applied (f : flag) (collapsed : bool) (btn : option nat) (w : world) : world :=
  let w1 := set_body_classList (toggle_token (CLASS f) collapsed (body_classList w)) w in
  match btn with
  | Some r => set_nodes (alter (painted f collapsed) r (nodes w1)) w1
  | None => w1
  end.

(** The element [r] is a control of the flag [f]: its one click listener is
    the listener the constructor of [f] adds. *)
Definition control (f : flag) (r : nat) (w : world) : Prop :=
  el_listeners <$> nodes w !! r = Some [f].

(** The icon, the tooltip and the aria label of [r] are the ones
    [applyState] writes for the present state of the body class of [f]. *)
Definition reflects (f : flag) (r : nat) (w : world) : Prop :=
  innerHTML_of r w = Some (icon f (body_has (CLASS f) w)) ∧
  attribute_of r "data-tooltip" w = Some (label f (body_has (CLASS f) w)) ∧
  attribute_of r "aria-label" w = Some (label f (body_has (CLASS f) w)).

(** The document part of two worlds is the same. *)
Definition same_document (w w' : world) : Prop :=
  body_classList w' = body_classList w ∧ body_children w' = body_children w ∧
  nodes w' = nodes w ∧ host_page w' = host_page w.

(** The store a read of [key] consults holds no entry for it, and the read
    reports no error: either the extension store answers, without
    [lastError] and without the key, or the extension call throws and
    page-local storage is readable and lacks the key. *)
Definition no_entry (key : string) (w : world) : Prop :=
  (chrome_throws w = false ∧ chrome_lastError w = None ∧ chrome_local w !! key = None) ∨
  (chrome_throws w = true ∧ ∃ m, localStorage w = Some m ∧ m !! key = None).

(** ** The effect of the button constructors and of the injection *)

Definition createButton (f : flag) : bool -> js nat :=
  match f with
  | Top => createTopButton
  | Bottom => createBottomButton
  | Left => createLeftButton
  end.

Definition className_of (f : flag) : string :=
  match f with
  | Top => "slack-vc-toggle-btn slack-vc-toggle-btn--top"
  | Bottom => "slack-vc-toggle-btn slack-vc-toggle-btn--bottom"
  | Left => "slack-vc-toggle-btn slack-vc-toggle-btn--left"
  end.

(** The button [createButton f collapsed] returns. *)
Definition new_button (f : flag) (collapsed : bool) : element :=
  let e := painted f collapsed
             (Element "button" (BTN_ID f) (className_of f) "button" "" ∅ ∅ []) in
  Element (el_tagName e) (el_id e) (el_className e) (el_type e) (el_innerHTML e)
    (el_attributes e) (el_style e) [f].

(** The world [createButton f collapsed] ends in: the class is set and the
    new button sits, detached, at the end of the store. *)
Definition with_button (f : flag) (collapsed : bool) (w : world) : world :=
  set_nodes (nodes w ++ [new_button f collapsed])
    (set_body_classList (toggle_token (CLASS f) collapsed (body_classList w)) w).

(** The world [appendChild r] ends in. *)
Definition appended (r : nat) (w : world) : world :=
  set_body_children (filter (fun x => x ≠ r) (body_children w) ++ [r]) w.

(** The world the injection block of the polling tick of [content.js] ends
    in, from the world [w] in which the timer has just been cleared. *)
Definition injected3 (top bottom left : bool) (w : world) : world :=
  let w1 := with_button Top top w in
  let w2 := with_button Bottom bottom w1 in
  let w3 := with_button Left left w2 in
  let topBtn := length (nodes w) in
  let bottomBtn := length (nodes w1) in
  let leftBtn := length (nodes w2) in
  applied Left left (Some leftBtn)
    (applied Bottom bottom (Some bottomBtn)
       (applied Top top (Some topBtn)
          (appended leftBtn (appended bottomBtn (appended topBtn w3))))).

(** The same for [part_000]. *)
Definition injected2 (top bottom : bool) (w : world) : world :=
  let w1 := with_button Top top w in
  let w2 := with_button Bottom bottom w1 in
  let topBtn := length (nodes w) in
  let bottomBtn := length (nodes w1) in
  applied Bottom bottom (Some bottomBtn)
    (applied Top top (Some topBtn)
       (appended bottomBtn (appended topBtn w2))).

(** The place of a flag in the array of states [init] reads. *)
Definition flag_index (f : flag) : nat :=
  match f with Top => 0 | Bottom => 1 | Left => 2 end.

Definition injected (v : variant) (states : list bool) (w : world) : world :=
  match v with
  | TwoToggle => injected2 (nth 0 states false) (nth 1 states false) w
  | ThreeToggle =>
      injected3 (nth 0 states false) (nth 1 states false) (nth 2 states false) w
  end.

(** The warning of a tick that fires on the timeout alone. *)
Definition timeout_warning (container : option host_element) (elapsed' : Z)
    (w : world) : world :=
  if negb (bool_decide (is_Some container)) && (maxWait <=? elapsed')%Z then
    set_console
      (console w ++ ["[Slack VC] Timed out waiting for Slack UI. Buttons injected anyway."])
      w
  else w.

(** The container the polling tick looks for. *)
Definition container_of (w : world) : option host_element :=
  match List.find (fun h => contains "p-ia4_top_nav" (h_classList h)) (host_page w) with
  | Some h => Some h
  | None => List.find (fun h => contains "p-client_container" (h_classList h)) (host_page w)
  end.

(** ** Sample pages *)

Definition slack_page : list host_element :=
  [ HostElement ["p-client_container"] 0%float 1280%float;
    HostElement ["p-tab_rail"] 0%float 70%float;
    HostElement ["p-view_contents"; "p-view_contents--sidebar"] 70%float 330%float;
    HostElement ["p-ia4_client__resizer--sidebar"] 326%float 334%float ].

(** A page before the script has run, with an empty extension store. *)
Definition blank_world : world :=
  World ["theme-dark"] [] [] [] false None ∅ (Some ∅) [] "" None.

(** The page after [init] and the first tick of the polling timer. *)
Definition loaded (v : variant) : world :=
  poll v [slack_page] (run_init v blank_world).

(** A page on which the class of the top flag is off the body while the
    top button still shows the icon and labels of the collapsed state, as
    after the host page has rewritten the class attribute of the body. *)
Definition desynced_world : world :=
  World ["theme-dark"] [0]
    [ Element "button" BTN_TOP_ID "slack-vc-toggle-btn slack-vc-toggle-btn--top"
        "button" ICON_DOWN
        (<["aria-label" := "ヘッダーを表示"]> (<["data-tooltip" := "ヘッダーを表示"]> ∅))
        ∅ [Top] ]
    slack_page false None ∅ (Some ∅) [] "" None.

(** A page whose extension store holds the string "true" under the key of
    the top flag, and a page on which the extension call throws and
    page-local storage holds "true" under that key, as [setStoredState]
    leaves it after a click in that situation. *)
Definition stringly_world : world :=
  World [] [] [] [] false None {[ STORAGE_KEY_TOP := JSString "true" ]} (Some ∅)
    [] "" None.
Definition fallback_world : world :=
  World [] [] [] [] true None ∅ (Some {[ STORAGE_KEY_TOP := "true" ]}) [] "" None.

(** A page on which the extension store reports an error to the callback. *)
Definition erroring_world : world :=
  World [] [] [] [] false (Some "QUOTA_BYTES quota exceeded")
    {[ STORAGE_KEY_TOP := JSBool true ]} (Some ∅) [] "" None.

(** The page after [init] of [part_000] and its injection, from which the
    top button has then been taken out of the body: the bottom control is
    still there. *)
Definition bottom_only_world : world :=
  set_body_children [1] (loaded TwoToggle).

(** ** Definitions for the further properties *)



(** A promise was rejected. *)
Definition is_rejected {A} (p : promise A) : Prop :=
  match p with Rejected _ => True | Resolved _ => False end.

(** The world after a storage read: it differs from the world before by
    the warning of a read that failed through the callback, if any. *)
Definition after_read (w : world) : world :=
  if negb (chrome_throws w) && bool_decide (is_Some (chrome_lastError w))
  then set_console (console w ++ ["[Slack VC] storage read error:"]) w
  else w.

(** Two worlds have the same stores and the same storage failures. *)
Definition same_storage (w w' : world) : Prop :=
  chrome_throws w' = chrome_throws w ∧ chrome_lastError w' = chrome_lastError w ∧
  chrome_local w' = chrome_local w ∧ localStorage w' = localStorage w.

(** Writes go through: the extension store accepts them, or the extension
    call throws and page-local storage is there to take them. *)
Definition writable (w : world) : Prop :=
  (chrome_throws w = false ∧ chrome_lastError w = None) ∨
  (chrome_throws w = true ∧ is_Some (localStorage w)).

(** [n] clicks in a row on the element [r]. *)
Fixpoint clicks (n : nat) (r : nat) (w : world) : world :=
  match n with
  | 0 => w
  | S n' => clicks n' r (dispatch_click r w)
  end.


(** ** The script as a transition system *)

(** What can happen on the page once the script is loaded: the user clicks
    an element or presses a key, one of the two timers ticks, or the host
    page re-renders the elements the selectors look for. *)
Inductive event :=
  | Click (r : nat)
  | Keydown (e : KeyboardEvent)
  | PollTick
  | PositionTick
  | HostChange (page : list host_element).

(** The positioning timer exists in [content.js] only. *)
Definition step (v : variant) (Number_toString : float -> string)
    (ev : event) (w : world) : world :=
  match ev with
  | Click r => dispatch_click r w
  | Keydown e => dispatch_keydown v e w
  | PollTick => run_callback (waitForSlack_tick v) w
  | PositionTick =>
      match v with
      | ThreeToggle => run_callback (ContentJs.positionLeftButton Number_toString) w
      | TwoToggle => w
      end
  | HostChange page => set_host_page page w
  end.

Definition run (v : variant) (Number_toString : float -> string)
    (evs : list event) (w : world) : world :=
  foldl (fun w' ev => step v Number_toString ev w') w evs.

(** No element carries a click listener of the script. *)
Definition bare (w : world) : Prop :=
  ∀ r e, nodes w !! r = Some e → el_listeners e = [].

(** Every element has no click listener of the script or exactly one, for a
    flag of the version. *)
Definition only_controls (v : variant) (w : world) : Prop :=
  ∀ r e, nodes w !! r = Some e →
    el_listeners e = [] ∨ ∃ f, f ∈ flags v ∧ el_listeners e = [f].

(** Every control shows the state of the class of its flag. *)
Definition in_sync (w : world) : Prop :=
  ∀ f r, control f r w → reflects f r w.

Definition one_control_per_flag (w : world) : Prop :=
  ∀ f r r', control f r w → control f r' w → r = r'.

(** While the polling timer runs nothing has been injected. *)
Definition pending_is_bare (w : world) : Prop :=
  is_Some (waitForSlack w) → bare w.

Definition consistent (v : variant) (w : world) : Prop :=
  only_controls v w ∧ one_control_per_flag w ∧ in_sync w ∧ pending_is_bare w.

#[global] Instance flag_eq_dec : EqDecision flag.
Proof. solve_decision. Defined.

(** Under the id of every flag of the version there is, if anything, the
    control of that flag; and once a control exists, there is one under the
    id of every flag. *)
Definition ids_reach_controls (v : variant) (w : world) : Prop :=
  (∀ f r, f ∈ flags v → element_by_id (BTN_ID f) w = Some r → control f r w) ∧
  ((∃ g r, control g r w) →
   ∀ f, f ∈ flags v → is_Some (element_by_id (BTN_ID f) w)).

(** What of the page and of the stores does not belong to the script is in
    [w'] as it is in [w]: the classes of the body other than the three
    marker classes, and the entries of both stores under other keys than the
    three storage keys. *)
Definition foreign_same (w w' : world) : Prop :=
  (∀ cls, (∀ f, cls ≠ CLASS f) → body_has cls w' = body_has cls w) ∧
  (∀ key, (∀ f, key ≠ STORAGE_KEY f) →
   chrome_local w' !! key = chrome_local w !! key ∧
   localStorage w' ≫= (fun m => m !! key) = localStorage w ≫= (fun m => m !! key)).

(** The elements of [old] are in the store of [w] as they were, and every
    control of [w] was created after them. *)
Definition keeps_elements (old : list element) (w : world) : Prop :=
  (∀ r, r < length old → nodes w !! r = old !! r) ∧
  (∀ f r, control f r w → length old ≤ r).

(** A page of the host with an element of its own in the body. *)
Definition hosted_world : world :=
  World ["theme-dark"] [0]
    [ Element "div" "root" "p-client_container" "" "<main></main>" ∅ ∅ [] ]
    slack_page false None ∅ (Some ∅) [] "" None.

(** * Properties *)

(** ** Token lists *)

Lemma contains_toggle_token cls b l : contains cls (toggle_token cls b l) = b.
Proof.
  unfold toggle_token, contains. destruct b.
  - destruct (decide (cls ∈ l)) as [H|H].
    + rewrite (bool_decide_true _ H). by apply bool_decide_eq_true.
    + rewrite (bool_decide_false _ H). apply bool_decide_eq_true.
      apply elem_of_app. right. apply list_elem_of_singleton. reflexivity.
  - apply bool_decide_eq_false. rewrite list_elem_of_filter. tauto.
Qed.

Lemma contains_toggle_token_ne c cls b l :
  c ≠ cls → contains c (toggle_token cls b l) = contains c l.
Proof.
  intros Hne. unfold toggle_token, contains. destruct b.
  - destruct (decide (cls ∈ l)) as [H|H].
    + by rewrite (bool_decide_true _ H).
    + rewrite (bool_decide_false _ H). apply bool_decide_ext.
      rewrite elem_of_app, list_elem_of_singleton. tauto.
  - apply bool_decide_ext. rewrite list_elem_of_filter. tauto.
Qed.

Lemma CLASS_inj f g : CLASS f = CLASS g → f = g.
Proof. destruct f, g; intros H; try reflexivity; discriminate H. Qed.

Lemma STORAGE_KEY_inj f g : STORAGE_KEY f = STORAGE_KEY g → f = g.
Proof. destruct f, g; intros H; try reflexivity; discriminate H. Qed.

(** ** [applyState] *)

Ltac js_unfold :=
  cbv [applyState applyTopState applyBottomState applyLeftState
       classList_toggle classList_contains set_innerHTML setAttribute set_style
       update_element bind ret modify get throw try_catch].

Lemma applyState_applied f c btn w :
  applyState f c btn w = Normal tt (applied f c btn w).
Proof.
  destruct f, btn as [r|], c; js_unfold; try reflexivity;
    unfold applied, set_nodes; cbn; rewrite !list_alter_alter_eq; reflexivity.
Qed.

Lemma applied_body_has f c btn w : body_has (CLASS f) (applied f c btn w) = c.
Proof.
  unfold body_has, applied. destruct btn; cbn; apply contains_toggle_token.
Qed.

Lemma applied_body_has_ne f c btn w cls :
  cls ≠ CLASS f → body_has cls (applied f c btn w) = body_has cls w.
Proof.
  intros H. unfold body_has, applied.
  destruct btn; cbn; by apply contains_toggle_token_ne.
Qed.

Lemma applied_lookup f c r w :
  nodes (applied f c (Some r) w) !! r = painted f c <$> nodes w !! r.
Proof. cbn. apply list_lookup_alter_eq. Qed.

Lemma applied_lookup_ne f c r r' w :
  r ≠ r' → nodes (applied f c (Some r) w) !! r' = nodes w !! r'.
Proof. intros H. cbn. by apply list_lookup_alter_ne. Qed.

Lemma painted_listeners f c e : el_listeners (painted f c e) = el_listeners e.
Proof. by destruct f. Qed.

Lemma painted_innerHTML f c e : el_innerHTML (painted f c e) = icon f c.
Proof. by destruct f. Qed.

Lemma painted_attributes f c e k :
  k = "data-tooltip" ∨ k = "aria-label" →
  el_attributes (painted f c e) !! k = Some (label f c).
Proof.
  intros [-> | ->]; destruct f; cbn.
  all: try (rewrite lookup_insert_ne by discriminate).
  all: apply lookup_insert_eq.
Qed.

(** ** [setStoredState] *)

Lemma setStoredState_same_document key v w :
  same_document w (run_callback (setStoredState key v) w).
Proof.
  destruct w as [? ? ? ? thr err ? ls ? ? ?].
  destruct thr, err, ls; repeat split.
Qed.

Lemma setStoredState_extension key v w :
  chrome_throws w = false → chrome_lastError w = None →
  chrome_local (run_callback (setStoredState key v) w)
  = <[key := JSBool v]> (chrome_local w).
Proof.
  destruct w as [? ? ? ? thr err ? ls ? ? ?]. cbn. by intros -> ->.
Qed.

Lemma setStoredState_fallback key v w m :
  chrome_throws w = true → localStorage w = Some m →
  localStorage (run_callback (setStoredState key v) w)
  = Some (<[key := String_of_bool v]> m).
Proof.
  destruct w as [? ? ? ? thr err ? ls ? ? ?]. cbn. by intros -> ->.
Qed.

(** ** Clicks *)

Lemma listener_applied f r w :
  listener f r w
  = setStoredState (STORAGE_KEY f) (negb (body_has (CLASS f) w))
      (applied f (negb (body_has (CLASS f) w)) (Some r) w).
Proof.
  pose proof (applyState_applied f (negb (body_has (CLASS f) w)) (Some r) w) as H.
  destruct f; cbn [applyState] in H;
    cbv [listener onTopClick onBottomClick onLeftClick bind classList_contains get];
    (change (contains ?c (body_classList w)) with (body_has c w));
    cbn [CLASS] in H; rewrite H; reflexivity.
Qed.

Lemma dispatch_click_control f r w :
  control f r w → dispatch_click r w = run_callback (listener f r) w.
Proof.
  unfold control, dispatch_click. intros H.
  destruct (nodes w !! r) as [e|]; [|done].
  cbn in H. injection H as ->. reflexivity.
Qed.

(** The world after one click on a control of [f]. *)
Lemma dispatch_click_applied f r w :
  control f r w →
  dispatch_click r w
  = run_callback (setStoredState (STORAGE_KEY f) (negb (body_has (CLASS f) w)))
      (applied f (negb (body_has (CLASS f) w)) (Some r) w).
Proof.
  intros H. rewrite (dispatch_click_control f r w H).
  unfold run_callback at 1. rewrite listener_applied. reflexivity.
Qed.

Lemma dispatch_click_body_has f r w :
  control f r w →
  body_has (CLASS f) (dispatch_click r w) = negb (body_has (CLASS f) w).
Proof.
  intros H. rewrite (dispatch_click_applied f r w H).
  destruct (setStoredState_same_document (STORAGE_KEY f)
              (negb (body_has (CLASS f) w))
              (applied f (negb (body_has (CLASS f) w)) (Some r) w)) as (Hc & _).
  unfold body_has at 1. rewrite Hc. apply applied_body_has.
Qed.

Lemma dispatch_click_lookup f r w :
  control f r w →
  nodes (dispatch_click r w) !! r
  = painted f (negb (body_has (CLASS f) w)) <$> nodes w !! r.
Proof.
  intros H. rewrite (dispatch_click_applied f r w H).
  destruct (setStoredState_same_document (STORAGE_KEY f)
              (negb (body_has (CLASS f) w))
              (applied f (negb (body_has (CLASS f) w)) (Some r) w)) as (_ & _ & Hn & _).
  rewrite Hn. apply applied_lookup.
Qed.

Lemma dispatch_click_keeps_control f r w :
  control f r w → control f r (dispatch_click r w).
Proof.
  intros H. unfold control. rewrite (dispatch_click_lookup f r w H).
  unfold control in H. destruct (nodes w !! r) as [e|]; [|done].
  cbn in *. by rewrite painted_listeners.
Qed.

Lemma applied_storage f c btn w :
  chrome_throws (applied f c btn w) = chrome_throws w ∧
  chrome_lastError (applied f c btn w) = chrome_lastError w ∧
  chrome_local (applied f c btn w) = chrome_local w ∧
  localStorage (applied f c btn w) = localStorage w.
Proof. by destruct btn. Qed.

Lemma dispatch_click_lookup_ne f r r' w :
  control f r w → r ≠ r' → nodes (dispatch_click r w) !! r' = nodes w !! r'.
Proof.
  intros H Hne. rewrite (dispatch_click_applied f r w H).
  destruct (setStoredState_same_document (STORAGE_KEY f)
              (negb (body_has (CLASS f) w))
              (applied f (negb (body_has (CLASS f) w)) (Some r) w)) as (_ & _ & Hn & _).
  rewrite Hn. by apply applied_lookup_ne.
Qed.

Lemma dispatch_click_body_has_ne f r w cls :
  control f r w → cls ≠ CLASS f →
  body_has cls (dispatch_click r w) = body_has cls w.
Proof.
  intros H Hne. rewrite (dispatch_click_applied f r w H).
  destruct (setStoredState_same_document (STORAGE_KEY f)
              (negb (body_has (CLASS f) w))
              (applied f (negb (body_has (CLASS f) w)) (Some r) w)) as (Hc & _).
  unfold body_has at 1. rewrite Hc. by apply applied_body_has_ne.
Qed.

(** After a click the control shows the state of its class. *)
Lemma dispatch_click_reflects f r e w :
  nodes w !! r = Some e → el_listeners e = [f] → reflects f r (dispatch_click r w).
Proof.
  intros He Hl.
  assert (control f r w) as H by (unfold control; rewrite He; cbn; by rewrite Hl).
  unfold reflects, innerHTML_of, attribute_of.
  rewrite (dispatch_click_body_has f r w H), (dispatch_click_lookup f r w H), He.
  cbn. rewrite painted_innerHTML, !painted_attributes by auto. done.
Qed.

(** Two controls of different flags are different elements. *)
Lemma controls_distinct f g r r' w :
  f ≠ g → control f r w → control g r' w → r ≠ r'.
Proof. unfold control. intros Hfg Hf Hg ->. congruence. Qed.

(** ** The claims about toggling *)

(** C1. For every flag and every state of the body classes, one click on a
    control of that flag applies the negation of the present class state and
    then hands that same value to [setStoredState]: the class is on the body
    after the click exactly when the persisted value is true.  The value
    reaches the extension store as a boolean when the store accepts the
    write, and page-local storage as its string when the extension call
    throws. *)
Theorem click_persists_new_state (f : flag) (r : nat) (w : world) :
  control f r w →
  let v := negb (body_has (CLASS f) w) in
  let w1 := applied f v (Some r) w in
  let w' := dispatch_click r w in
  applyState f v (Some r) w = Normal tt w1 ∧
  w' = run_callback (setStoredState (STORAGE_KEY f) v) w1 ∧
  body_has (CLASS f) w' = v ∧
  (chrome_throws w = false → chrome_lastError w = None →
   chrome_local w' !! STORAGE_KEY f = Some (JSBool v)) ∧
  (chrome_throws w = true → ∀ m, localStorage w = Some m →
   localStorage w' = Some (<[STORAGE_KEY f := String_of_bool v]> m)).
Proof.
  intros H v w1 w'. subst v w1 w'.
  destruct (applied_storage f (negb (body_has (CLASS f) w)) (Some r) w)
    as (Ht & He & Hc & Hl).
  split; [apply applyState_applied|].
  split; [by apply dispatch_click_applied|].
  split; [by apply dispatch_click_body_has|].
  rewrite (dispatch_click_applied f r w H). split.
  - intros Hthr Herr. rewrite setStoredState_extension by congruence.
    apply lookup_insert_eq.
  - intros Hthr m Hm. apply setStoredState_fallback; congruence.
Qed.

Lemma click_persists_new_state_witness :
  control Top 0 (loaded ThreeToggle) ∧
  body_has CLASS_TOP (dispatch_click 0 (loaded ThreeToggle)) = true ∧
  chrome_local (dispatch_click 0 (loaded ThreeToggle)) !! STORAGE_KEY_TOP
  = Some (JSBool true).
Proof.
  assert (control Top 0 (loaded ThreeToggle)) as H by (vm_compute; reflexivity).
  destruct (click_persists_new_state Top 0 (loaded ThreeToggle) H)
    as (_ & _ & Hb & Hs & _).
  split; [exact H|]. split; [exact Hb|].
  apply Hs; vm_compute; reflexivity.
Defined.

(** C2, as amended.  From every state, two clicks in a row on a control
    bring the body class of its flag back to where it was and leave the icon,
    the tooltip and the aria label at the values [applyState] writes for that
    class state.  So the three return to their original values exactly when
    the control showed the state of the class to begin with, which is how
    the constructors and every click leave it. *)
Theorem double_click_restores (f : flag) (r : nat) (w : world) :
  control f r w →
  let w2 := dispatch_click r (dispatch_click r w) in
  body_has (CLASS f) w2 = body_has (CLASS f) w ∧
  reflects f r w2 ∧
  (reflects f r w ↔
   innerHTML_of r w2 = innerHTML_of r w ∧
   attribute_of r "data-tooltip" w2 = attribute_of r "data-tooltip" w ∧
   attribute_of r "aria-label" w2 = attribute_of r "aria-label" w).
Proof.
  intros H w2. subst w2.
  pose proof (dispatch_click_keeps_control f r w H) as H1.
  assert (body_has (CLASS f) (dispatch_click r (dispatch_click r w))
          = body_has (CLASS f) w) as Hb.
  { rewrite (dispatch_click_body_has f r _ H1), (dispatch_click_body_has f r w H).
    apply negb_involutive. }
  assert (reflects f r (dispatch_click r (dispatch_click r w))) as Hr.
  { unfold control in H1.
    destruct (nodes (dispatch_click r w) !! r) as [e1|] eqn:He1; [|done].
    cbn in H1. injection H1 as Hl. by apply (dispatch_click_reflects f r e1). }
  split; [exact Hb|]. split; [exact Hr|].
  destruct Hr as (Hi & Ht & Ha). rewrite Hb in Hi, Ht, Ha.
  unfold reflects. rewrite Hi, Ht, Ha. split.
  - intros (-> & -> & ->). done.
  - intros (<- & <- & <-). done.
Qed.

Lemma double_click_restores_witness :
  control Top 0 (loaded ThreeToggle) ∧
  body_has CLASS_TOP (dispatch_click 0 (dispatch_click 0 (loaded ThreeToggle)))
  = body_has CLASS_TOP (loaded ThreeToggle) ∧
  innerHTML_of 0 (dispatch_click 0 (dispatch_click 0 (loaded ThreeToggle)))
  = innerHTML_of 0 (loaded ThreeToggle).
Proof.
  assert (control Top 0 (loaded ThreeToggle)) as H by (vm_compute; reflexivity).
  assert (reflects Top 0 (loaded ThreeToggle)) as Hs
    by (unfold reflects; repeat split; vm_compute; reflexivity).
  destruct (double_click_restores Top 0 (loaded ThreeToggle) H) as (Hb & _ & Hr & _).
  split; [exact H|]. split; [exact Hb|].
  exact (proj1 (Hr Hs)).
Defined.

(** C2 as stated fails: with the class off the body and the button showing
    the icon of the collapsed state, two clicks leave the icon of the
    expanded state, not the original one. *)
Lemma double_click_counterexample :
  control Top 0 desynced_world ∧
  body_has CLASS_TOP desynced_world = false ∧
  innerHTML_of 0 desynced_world = Some ICON_DOWN ∧
  innerHTML_of 0 (dispatch_click 0 (dispatch_click 0 desynced_world)) = Some ICON_UP ∧
  innerHTML_of 0 (dispatch_click 0 (dispatch_click 0 desynced_world))
  ≠ innerHTML_of 0 desynced_world.
Proof.
  repeat (split; [vm_compute; reflexivity|]).
  vm_compute. discriminate.
Qed.

Lemma setStoredState_other_keys key key' v w :
  key' ≠ key →
  chrome_local (run_callback (setStoredState key v) w) !! key' = chrome_local w !! key' ∧
  localStorage (run_callback (setStoredState key v) w) ≫= (fun m => m !! key')
  = localStorage w ≫= (fun m => m !! key').
Proof.
  intros Hne. destruct w as [? ? ? ? thr err loc ls ? ? ?].
  destruct thr, err, ls; cbn; split; try reflexivity;
    by rewrite lookup_insert_ne.
Qed.

(** ** Independence of the flags *)

(** C8. Applying a state for one flag, or clicking its control, sets the
    marker class of that flag and no other class of the body, and leaves
    every element but the button it was given as it was; so for a second,
    distinct flag neither the body class nor the button (icon, tooltip, aria
    label and all) changes.  A click leaves the stored value of the other
    flag alone as well. *)
Theorem flags_independent (f g : flag) (c : bool) (r r' : nat) (w : world) :
  f ≠ g → r ≠ r' →
  (applyState f c (Some r) w = Normal tt (applied f c (Some r) w) ∧
   body_has (CLASS f) (applied f c (Some r) w) = c ∧
   (∀ cls, cls ≠ CLASS f → body_has cls (applied f c (Some r) w) = body_has cls w) ∧
   body_has (CLASS g) (applied f c (Some r) w) = body_has (CLASS g) w ∧
   nodes (applied f c (Some r) w) !! r' = nodes w !! r') ∧
  (control f r w →
   (∀ cls, cls ≠ CLASS f → body_has cls (dispatch_click r w) = body_has cls w) ∧
   body_has (CLASS g) (dispatch_click r w) = body_has (CLASS g) w ∧
   nodes (dispatch_click r w) !! r' = nodes w !! r' ∧
   chrome_local (dispatch_click r w) !! STORAGE_KEY g = chrome_local w !! STORAGE_KEY g ∧
   localStorage (dispatch_click r w) ≫= (fun m => m !! STORAGE_KEY g)
   = localStorage w ≫= (fun m => m !! STORAGE_KEY g)).
Proof.
  intros Hfg Hr.
  assert (CLASS g ≠ CLASS f) as Hc by (intros E; apply Hfg; symmetry; by apply CLASS_inj).
  split.
  - split; [apply applyState_applied|].
    split; [apply applied_body_has|].
    split; [intros cls Hcls; by apply applied_body_has_ne|].
    split; [by apply applied_body_has_ne|].
    by apply applied_lookup_ne.
  - intros H.
    split; [intros cls Hcls; by apply (dispatch_click_body_has_ne f)|].
    split; [by apply (dispatch_click_body_has_ne f)|].
    split; [by apply (dispatch_click_lookup_ne f)|].
    assert (STORAGE_KEY g ≠ STORAGE_KEY f) as Hk
      by (intros E; apply Hfg; symmetry; by apply STORAGE_KEY_inj).
    rewrite (dispatch_click_applied f r w H).
    destruct (setStoredState_other_keys (STORAGE_KEY f) (STORAGE_KEY g)
                (negb (body_has (CLASS f) w))
                (applied f (negb (body_has (CLASS f) w)) (Some r) w) Hk) as (-> & ->).
    destruct (applied_storage f (negb (body_has (CLASS f) w)) (Some r) w)
      as (_ & _ & -> & ->).
    done.
Qed.

Lemma flags_independent_witness :
  body_has CLASS_BOTTOM (dispatch_click 0 (loaded ThreeToggle))
  = body_has CLASS_BOTTOM (loaded ThreeToggle) ∧
  nodes (dispatch_click 0 (loaded ThreeToggle)) !! 1 = nodes (loaded ThreeToggle) !! 1.
Proof.
  assert (Top ≠ Bottom) as Hfg by discriminate.
  assert (0 ≠ 1) as Hr by discriminate.
  assert (control Top 0 (loaded ThreeToggle)) as H by (vm_compute; reflexivity).
  destruct (flags_independent Top Bottom true 0 1 (loaded ThreeToggle) Hfg Hr)
    as (_ & Hclick).
  destruct (Hclick H) as (_ & Hb & Hn & _).
  split; [exact Hb | exact Hn].
Defined.

(** ** A null button *)

(** A property write on a null button throws: the guard of [applyState]
    is what keeps the call below from failing. *)
Lemma set_innerHTML_null v w :
  set_innerHTML None v w = Throw "TypeError: Cannot set properties of null" w.
Proof. reflexivity. Qed.

(** C9. With a null button [applyState] completes normally, puts the marker
    class of its flag on the body exactly when [collapsed] is true, and
    changes nothing else: no element is touched. *)
Theorem applyState_null_button (f : flag) (collapsed : bool) (w : world) :
  applyState f collapsed None w
  = Normal tt (set_body_classList
                 (toggle_token (CLASS f) collapsed (body_classList w)) w) ∧
  body_has (CLASS f) (final (applyState f collapsed None w)) = collapsed ∧
  nodes (final (applyState f collapsed None w)) = nodes w ∧
  body_children (final (applyState f collapsed None w)) = body_children w.
Proof.
  rewrite applyState_applied. cbn.
  split; [reflexivity|]. split; [|done].
  apply (applied_body_has f collapsed None w).
Qed.

(** ** Button constructors *)

Ltac js_red :=
  cbv [bind ret throw get modify try_catch new_Promise
       createElement appendChild update_element set_id set_className set_type
       set_innerHTML setAttribute set_style addEventListener_click console_warn
       classList_toggle classList_contains getElementById querySelector querySelector_or
       set_body_classList set_body_children set_nodes set_host_page set_chrome_local
       set_localStorage set_console set_lastLeftPos set_waitForSlack
       body_classList body_children nodes host_page chrome_throws chrome_lastError
       chrome_local localStorage console lastLeftPos waitForSlack
       applyState applyTopState applyBottomState applyLeftState applied].

Lemma alter_fresh {A} (f : A → A) (l : list A) (x : A) :
  alter f (length l) (l ++ [x]) = l ++ [f x].
Proof.
  rewrite <- (Nat.add_0_r (length l)) at 1. by rewrite alter_app_r.
Qed.

Lemma createButton_eq f c w :
  createButton f c w = Normal (length (nodes w)) (with_button f c w).
Proof.
  destruct w as [cl ch ns hp thr err loc ls con llp tmr].
  destruct f; cbv [createButton createTopButton createBottomButton createLeftButton
                   with_button];
    js_red; cbv [CLASS]; rewrite !alter_fresh; destruct c; reflexivity.
Qed.

Lemma createTopButton_eq c w :
  createTopButton c w = Normal (length (nodes w)) (with_button Top c w).
Proof. apply (createButton_eq Top). Qed.
Lemma createBottomButton_eq c w :
  createBottomButton c w = Normal (length (nodes w)) (with_button Bottom c w).
Proof. apply (createButton_eq Bottom). Qed.
Lemma createLeftButton_eq c w :
  createLeftButton c w = Normal (length (nodes w)) (with_button Left c w).
Proof. apply (createButton_eq Left). Qed.

Lemma applyTopState_eq c btn w :
  applyTopState c btn w = Normal tt (applied Top c btn w).
Proof. apply (applyState_applied Top). Qed.
Lemma applyBottomState_eq c btn w :
  applyBottomState c btn w = Normal tt (applied Bottom c btn w).
Proof. apply (applyState_applied Bottom). Qed.
Lemma applyLeftState_eq c btn w :
  applyLeftState c btn w = Normal tt (applied Left c btn w).
Proof. apply (applyState_applied Left). Qed.

Lemma appendChild_eq r w : appendChild r w = Normal tt (appended r w).
Proof. reflexivity. Qed.

Lemma with_button_body_has f c w : body_has (CLASS f) (with_button f c w) = c.
Proof. apply contains_toggle_token. Qed.

Lemma with_button_body_has_ne f c w cls :
  cls ≠ CLASS f → body_has cls (with_button f c w) = body_has cls w.
Proof. intros H. by apply contains_toggle_token_ne. Qed.

(** ** The polling timer *)

Lemma tick_idle v w :
  waitForSlack w = None → waitForSlack_tick v w = Normal tt w.
Proof.
  intros H. destruct v; cbv [waitForSlack_tick ContentJs.waitForSlack_tick
    Part000.waitForSlack_tick bind get]; rewrite H; reflexivity.
Qed.

Lemma querySelector_or_container w :
  querySelector_or "p-ia4_top_nav" "p-client_container" w = Normal (container_of w) w.
Proof.
  cbv [querySelector_or querySelector bind get ret container_of].
  destruct (List.find _ (host_page w)); reflexivity.
Qed.

(** One tick of a running timer: it fires when the container is there or
    the time is up, and only counts otherwise. *)
Lemma tick_running v w p :
  waitForSlack w = Some p →
  let elapsed' := (elapsed p + interval)%Z in
  let w1 := set_waitForSlack (Some (PollState (collapsedStates p) elapsed')) w in
  waitForSlack_tick v w
  = Normal tt
      (if bool_decide (is_Some (container_of w)) || (maxWait <=? elapsed')%Z
       then timeout_warning (container_of w) elapsed'
              (injected v (collapsedStates p) (set_waitForSlack None w1))
       else w1).
Proof.
  intros H elapsed' w1.
  assert (container_of w1 = container_of w) as Hc by reflexivity.
  destruct v; cbv [waitForSlack_tick ContentJs.waitForSlack_tick
    Part000.waitForSlack_tick]; unfold bind at 1, get at 1; rewrite H;
    unfold bind at 1, modify at 1; fold elapsed'; fold w1;
    unfold bind at 1; rewrite querySelector_or_container, Hc;
    destruct (bool_decide (is_Some (container_of w)) || (maxWait <=? elapsed')%Z);
    try reflexivity.
  - unfold bind at 1, modify at 1.
    unfold bind at 1. rewrite createTopButton_eq.
    unfold bind at 1. rewrite createBottomButton_eq.
    unfold bind at 1. rewrite appendChild_eq.
    unfold bind at 1. rewrite appendChild_eq.
    unfold bind at 1. rewrite applyTopState_eq.
    unfold bind at 1. rewrite applyBottomState_eq.
    unfold timeout_warning, injected, injected2.
    destruct (negb (bool_decide (is_Some (container_of w))) && (maxWait <=? elapsed')%Z);
      reflexivity.
  - unfold bind at 1, modify at 1.
    unfold bind at 1. rewrite createTopButton_eq.
    unfold bind at 1. rewrite createBottomButton_eq.
    unfold bind at 1. rewrite createLeftButton_eq.
    unfold bind at 1. rewrite appendChild_eq.
    unfold bind at 1. rewrite appendChild_eq.
    unfold bind at 1. rewrite appendChild_eq.
    unfold bind at 1. rewrite applyTopState_eq.
    unfold bind at 1. rewrite applyBottomState_eq.
    unfold bind at 1. rewrite applyLeftState_eq.
    unfold timeout_warning, injected, injected3.
    destruct (negb (bool_decide (is_Some (container_of w))) && (maxWait <=? elapsed')%Z);
      reflexivity.
Qed.

(** ** Reading the stored state *)

Lemma strict_equals_true v : strict_equals v (JSBool true) = true ↔ v = JSBool true.
Proof.
  destruct v as [| |[]| |]; cbn; split; intros H; try reflexivity; discriminate H.
Qed.

(** The extension store answers: the result is the strict comparison of the
    entry (undefined when there is none) with [true]. *)
Lemma getStoredState_extension key w :
  chrome_throws w = false → chrome_lastError w = None →
  getStoredState key w
  = Normal (Resolved (strict_equals (default JSUndefined (chrome_local w !! key))
                        (JSBool true))) w.
Proof.
  destruct w as [cl ch ns hp thr err loc ls con llp tmr]. cbn. intros -> ->.
  cbv [getStoredState new_Promise try_catch chrome_storage_local_get bind
       chrome_runtime_lastError get ret chrome_throws chrome_lastError chrome_local
       property].
  cbn. destruct (loc !! key) as [x|]; cbn.
  - by rewrite lookup_singleton_eq.
  - by rewrite lookup_empty.
Qed.

(** The extension store reports an error to the callback. *)
Lemma getStoredState_lastError key w :
  chrome_throws w = false → is_Some (chrome_lastError w) →
  getStoredState key w
  = Normal (Resolved false)
      (set_console (console w ++ ["[Slack VC] storage read error:"]) w).
Proof.
  destruct w as [cl ch ns hp thr err loc ls con llp tmr]. cbn.
  intros -> [msg ->]. reflexivity.
Qed.

(** The extension call throws: the answer comes from page-local storage. *)
Lemma getStoredState_fallback key w m :
  chrome_throws w = true → localStorage w = Some m →
  getStoredState key w
  = Normal (Resolved (bool_decide (m !! key = Some "true"))) w.
Proof.
  destruct w as [cl ch ns hp thr err loc ls con llp tmr]. cbn.
  intros -> ->. reflexivity.
Qed.

(** The extension call throws and page-local storage cannot be read. *)
Lemma getStoredState_rejected key w :
  chrome_throws w = true → localStorage w = None →
  getStoredState key w
  = Normal (Rejected "SecurityError: access to localStorage is denied") w.
Proof.
  destruct w as [cl ch ns hp thr err loc ls con llp tmr]. cbn.
  intros -> ->. reflexivity.
Qed.

Lemma getStoredState_no_entry key w :
  no_entry key w → getStoredState key w = Normal (Resolved false) w.
Proof.
  intros [(Ht & He & Hk) | (Ht & m & Hm & Hk)].
  - rewrite getStoredState_extension by done. by rewrite Hk.
  - rewrite (getStoredState_fallback key w m) by done.
    rewrite Hk. reflexivity.
Qed.

(** C10. The two paths of [getStoredState] decode differently.  When the
    extension store answers, the result is true exactly when the entry is
    the boolean true, so the string "true", a number or null read as not
    collapsed; when the extension call throws, the result is true exactly
    when page-local storage holds the string "true" under the key. *)
Theorem getStoredState_decoding (key : string) (w : world) :
  (chrome_throws w = false → chrome_lastError w = None →
   ∃ b, getStoredState key w = Normal (Resolved b) w ∧
        (b = true ↔ chrome_local w !! key = Some (JSBool true))) ∧
  (chrome_throws w = true → ∀ m, localStorage w = Some m →
   ∃ b, getStoredState key w = Normal (Resolved b) w ∧
        (b = true ↔ m !! key = Some "true")).
Proof.
  split.
  - intros Ht He. eexists. split; [by apply getStoredState_extension|].
    rewrite strict_equals_true.
    destruct (chrome_local w !! key) as [x|]; cbn; split; congruence.
  - intros Ht m Hm. eexists. split; [by apply getStoredState_fallback|].
    apply bool_decide_eq_true.
Qed.

Lemma getStoredState_decoding_witness :
  getStoredState STORAGE_KEY_TOP stringly_world = Normal (Resolved false) stringly_world ∧
  getStoredState STORAGE_KEY_TOP fallback_world = Normal (Resolved true) fallback_world.
Proof.
  destruct (getStoredState_decoding STORAGE_KEY_TOP stringly_world) as (He & _).
  destruct (getStoredState_decoding STORAGE_KEY_TOP fallback_world) as (_ & Hf).
  destruct (He eq_refl eq_refl) as (b & Hb & Hiff).
  destruct (Hf eq_refl _ eq_refl) as (b' & Hb' & Hiff').
  split.
  - rewrite Hb. destruct b; [|reflexivity].
    destruct Hiff as (Hiff & _). specialize (Hiff eq_refl).
    vm_compute in Hiff. discriminate Hiff.
  - rewrite Hb'. destruct b'; [reflexivity|].
    destruct Hiff' as (_ & Hiff'). symmetry in Hiff'.
    rewrite Hiff'; [reflexivity | vm_compute; reflexivity].
Defined.

(** C6, as amended.  A read that fails through the completion callback
    resolves to false, with a warning on the console.  A read that fails by
    throwing falls back to page-local storage: when that can be read, the
    promise resolves to true exactly when the string stored under the key
    is "true", and so to false when there is no entry.  Either way the promise
    resolves and nothing is thrown at the caller. *)
Theorem getStoredState_failing_read (key : string) (w : world) :
  (chrome_throws w = false → is_Some (chrome_lastError w) →
   getStoredState key w
   = Normal (Resolved false)
       (set_console (console w ++ ["[Slack VC] storage read error:"]) w)) ∧
  (chrome_throws w = true → ∀ m, localStorage w = Some m →
   getStoredState key w = Normal (Resolved (bool_decide (m !! key = Some "true"))) w ∧
   (m !! key = None → getStoredState key w = Normal (Resolved false) w)).
Proof.
  split.
  - apply getStoredState_lastError.
  - intros Ht m Hm. split; [by apply getStoredState_fallback|].
    intros Hk. rewrite (getStoredState_fallback key w m) by done.
    by rewrite Hk.
Qed.

Lemma getStoredState_failing_read_witness :
  getStoredState STORAGE_KEY_TOP erroring_world
  = Normal (Resolved false)
      (set_console ["[Slack VC] storage read error:"] erroring_world) ∧
  getStoredState STORAGE_KEY_BOTTOM fallback_world
  = Normal (Resolved false) fallback_world.
Proof.
  destruct (getStoredState_failing_read STORAGE_KEY_TOP erroring_world) as (He & _).
  destruct (getStoredState_failing_read STORAGE_KEY_BOTTOM fallback_world) as (_ & H).
  destruct (H eq_refl _ eq_refl) as (_ & Hnone).
  split.
  - apply He; [reflexivity | eexists; reflexivity].
  - apply Hnone. vm_compute. reflexivity.
Defined.

(** C6 as stated fails: the extension call throws, page-local storage holds
    "true" under the key, and the read resolves to true. *)
Lemma getStoredState_failing_read_counterexample :
  chrome_throws fallback_world = true ∧
  getStoredState STORAGE_KEY_TOP fallback_world = Normal (Resolved true) fallback_world ∧
  getStoredState STORAGE_KEY_TOP fallback_world ≠ Normal (Resolved false) fallback_world.
Proof.
  split; [reflexivity|].
  assert (getStoredState STORAGE_KEY_TOP fallback_world
          = Normal (Resolved true) fallback_world) as H by (vm_compute; reflexivity).
  split; [exact H|]. rewrite H. discriminate.
Qed.

(** ** Reading back what a click has written *)

Lemma setStoredState_environment key v w :
  chrome_throws (run_callback (setStoredState key v) w) = chrome_throws w ∧
  chrome_lastError (run_callback (setStoredState key v) w) = chrome_lastError w.
Proof.
  destruct w as [? ? ? ? thr err ? ls ? ? ?].
  destruct thr, err, ls; split; reflexivity.
Qed.


(** ** The flags of a version *)

Lemma flags_cases v f :
  f ∈ flags v → f = Top ∨ f = Bottom ∨ (f = Left ∧ v = ThreeToggle).
Proof.
  destruct f; [by left | by right; left |].
  destruct v; [|by right; right].
  intros H. exfalso.
  apply elem_of_cons in H as [H|H]; [discriminate H|].
  apply elem_of_cons in H as [H|H]; [discriminate H|].
  by apply elem_of_nil in H.
Qed.

Lemma flags_Top v : Top ∈ flags v.
Proof. destruct v; apply list_elem_of_here. Qed.

Lemma flags_Bottom v : Bottom ∈ flags v.
Proof. destruct v; apply list_elem_of_further, list_elem_of_here. Qed.

Lemma flags_Left : Left ∈ flags ThreeToggle.
Proof. do 2 apply list_elem_of_further. apply list_elem_of_here. Qed.

(** ** Initialization *)

Lemma init_guard v w r :
  element_by_id BTN_TOP_ID w = Some r → init v w = Normal tt w.
Proof.
  intros H. destruct v; cbv [init ContentJs.init Part000.init bind getElementById get];
    rewrite H; reflexivity.
Qed.

Lemma init_fresh v w :
  element_by_id BTN_TOP_ID w = None →
  (∀ f, f ∈ flags v → no_entry (STORAGE_KEY f) w) →
  init v w
  = Normal tt (set_waitForSlack
                 (Some (PollState (map (fun _ => false) (flags v)) 0%Z)) w).
Proof.
  intros H Hn.
  destruct v; cbv [init ContentJs.init Part000.init]; unfold bind at 1;
    cbv [getElementById get]; rewrite H.
  - assert (no_entry STORAGE_KEY_TOP w) as H1 by apply (Hn Top (flags_Top _)).
    assert (no_entry STORAGE_KEY_BOTTOM w) as H2 by apply (Hn Bottom (flags_Bottom _)).
    unfold bind at 1. rewrite (getStoredState_no_entry _ _ H1).
    unfold bind at 1. rewrite (getStoredState_no_entry _ _ H2).
    reflexivity.
  - assert (no_entry STORAGE_KEY_TOP w) as H1 by apply (Hn Top (flags_Top _)).
    assert (no_entry STORAGE_KEY_BOTTOM w) as H2 by apply (Hn Bottom (flags_Bottom _)).
    assert (no_entry STORAGE_KEY_LEFT w) as H3 by apply (Hn Left flags_Left).
    unfold bind at 1. rewrite (getStoredState_no_entry _ _ H1).
    unfold bind at 1. rewrite (getStoredState_no_entry _ _ H2).
    unfold bind at 1. rewrite (getStoredState_no_entry _ _ H3).
    reflexivity.
Qed.

Lemma applied_waitForSlack f c btn w :
  waitForSlack (applied f c btn w) = waitForSlack w.
Proof. by destruct btn. Qed.

Lemma injected_waitForSlack v states w :
  waitForSlack (injected v states w) = waitForSlack w.
Proof.
  destruct v; cbv [injected injected2 injected3]; by rewrite !applied_waitForSlack.
Qed.

Lemma injected_body_has v states w f :
  f ∈ flags v →
  body_has (CLASS f) (injected v states w) = nth (flag_index f) states false.
Proof.
  intros Hf.
  destruct (flags_cases v f Hf) as [-> | [-> | [-> ->]]];
    [destruct v | destruct v |]; cbv [injected injected2 injected3].
  all: repeat first
    [ apply applied_body_has
    | rewrite applied_body_has_ne by discriminate ].
Qed.

Lemma timeout_warning_fields c e w :
  body_classList (timeout_warning c e w) = body_classList w ∧
  waitForSlack (timeout_warning c e w) = waitForSlack w ∧
  nodes (timeout_warning c e w) = nodes w ∧
  body_children (timeout_warning c e w) = body_children w.
Proof. unfold timeout_warning. by destruct (_ && _). Qed.

(** The document and the timer after the ticks of a cleared timer. *)
Lemma poll_idle v pages w :
  waitForSlack w = None →
  waitForSlack (poll v pages w) = None ∧
  body_classList (poll v pages w) = body_classList w ∧
  nodes (poll v pages w) = nodes w ∧
  body_children (poll v pages w) = body_children w.
Proof.
  revert w. induction pages as [|page pages IH]; intros w H; [done|].
  cbn [poll]. unfold run_callback.
  rewrite tick_idle by exact H.
  destruct (IH (set_host_page page w) H) as (? & ? & ? & ?). done.
Qed.

(** ** The document after the injection *)

Lemma painted_new_button f c : painted f c (new_button f c) = new_button f c.
Proof. destruct f, c; vm_compute; reflexivity. Qed.

Lemma with_button_nodes f c w : nodes (with_button f c w) = nodes w ++ [new_button f c].
Proof. reflexivity. Qed.

Lemma applied_nodes f c r w :
  nodes (applied f c (Some r) w) = alter (painted f c) r (nodes w).
Proof. reflexivity. Qed.

Lemma appended_nodes r w : nodes (appended r w) = nodes w.
Proof. reflexivity. Qed.

Lemma alter_after {A} (f : A → A) (l k : list A) (i : nat) :
  alter f (length l + i) (l ++ k) = l ++ alter f i k.
Proof. apply alter_app_r. Qed.

Lemma alter_at_length {A} (f : A → A) (l k : list A) :
  alter f (length l) (l ++ k) = l ++ alter f 0 k.
Proof. rewrite <- (Nat.add_0_r (length l)) at 1. apply alter_app_r. Qed.

Lemma injected3_nodes t b l w :
  nodes (injected3 t b l w)
  = nodes w ++ [new_button Top t; new_button Bottom b; new_button Left l].
Proof.
  unfold injected3. rewrite !applied_nodes, !appended_nodes, !with_button_nodes.
  rewrite <- !app_assoc. cbn [app]. rewrite !length_app. cbn [length].
  rewrite alter_at_length, !alter_after. cbn [alter list_alter Nat.add].
  by rewrite !painted_new_button.
Qed.

Lemma injected2_nodes t b w :
  nodes (injected2 t b w) = nodes w ++ [new_button Top t; new_button Bottom b].
Proof.
  unfold injected2. rewrite !applied_nodes, !appended_nodes, !with_button_nodes.
  rewrite <- !app_assoc. cbn [app]. rewrite !length_app. cbn [length].
  rewrite alter_at_length, !alter_after. cbn [alter list_alter Nat.add].
  by rewrite !painted_new_button.
Qed.

(** The injection adds one button per flag of the script at the end of the
    store, each as its constructor made it. *)
Lemma injected_nodes v states w :
  nodes (injected v states w)
  = nodes w ++ map (fun f => new_button f (nth (flag_index f) states false)) (flags v).
Proof. destruct v; [apply injected2_nodes | apply injected3_nodes]. Qed.

Lemma injected_lookup v states w f :
  f ∈ flags v →
  nodes (injected v states w) !! (length (nodes w) + flag_index f)
  = Some (new_button f (nth (flag_index f) states false)).
Proof.
  intros Hf. rewrite injected_nodes, lookup_app_r by lia.
  replace (length (nodes w) + flag_index f - length (nodes w)) with (flag_index f) by lia.
  destruct (flags_cases v f Hf) as [-> | [-> | [-> ->]]];
    [destruct v | destruct v |]; reflexivity.
Qed.

Lemma applied_children f c btn w :
  body_children (applied f c btn w) = body_children w.
Proof. by destruct btn. Qed.

(** Each new button is a child of the body. *)
Lemma injected_children v states w f :
  f ∈ flags v →
  length (nodes w) + flag_index f ∈ body_children (injected v states w).
Proof.
  intros Hf.
  destruct (flags_cases v f Hf) as [-> | [-> | [-> ->]]];
    [destruct v | destruct v |]; cbv [injected injected2 injected3];
    rewrite !applied_children; unfold appended;
    cbn [body_children set_body_children];
    rewrite ?with_button_nodes, ?length_app; cbn [length flag_index].
  all: repeat first
    [ apply list_elem_of_singleton; lia
    | apply elem_of_app; right; apply list_elem_of_singleton; lia
    | apply elem_of_app; left; apply list_elem_of_filter; split; [lia|] ].
Qed.

(** Each new button is a control of its flag and shows the state of the
    class of that flag. *)
Lemma injected_control v states w f :
  f ∈ flags v →
  control f (length (nodes w) + flag_index f) (injected v states w) ∧
  reflects f (length (nodes w) + flag_index f) (injected v states w).
Proof.
  intros Hf. unfold control, reflects, innerHTML_of, attribute_of.
  rewrite (injected_lookup v states w f Hf), (injected_body_has v states w f Hf).
  split; [reflexivity|]. cbn [fmap option_fmap option_map mbind option_bind].
  unfold new_button. cbn [el_innerHTML el_attributes].
  rewrite painted_innerHTML, !painted_attributes by auto. done.
Qed.

(** A running timer fires within the ticks that take [elapsed] to
    [maxWait], whatever the host page does in between: the document ends as
    the injection leaves it, from a world [w0] with the document of [w]. *)
Lemma poll_fires v pages :
  ∀ w p,
    waitForSlack w = Some p →
    (elapsed p < maxWait)%Z →
    (maxWait ≤ elapsed p + interval * Z.of_nat (length pages))%Z →
    ∃ w0,
      (body_classList w0 = body_classList w ∧ nodes w0 = nodes w ∧
       body_children w0 = body_children w) ∧
      waitForSlack (poll v pages w) = None ∧
      body_classList (poll v pages w)
      = body_classList (injected v (collapsedStates p) w0) ∧
      nodes (poll v pages w) = nodes (injected v (collapsedStates p) w0) ∧
      body_children (poll v pages w)
      = body_children (injected v (collapsedStates p) w0).
Proof.
  induction pages as [|page pages IH]; intros w p Hp Hlt Hge.
  - cbn in Hge. lia.
  - cbn [poll]. unfold run_callback.
    rewrite (tick_running v (set_host_page page w) p Hp). cbv zeta.
    destruct (bool_decide _ || _) eqn:Hfire.
    + set (w0 := set_waitForSlack None _).
      set (w1 := timeout_warning _ _ _).
      destruct (timeout_warning_fields
                  (container_of (set_host_page page w)) (elapsed p + interval)%Z
                  (injected v (collapsedStates p) w0)) as (Hc1 & Ht1 & Hn1 & Hch1).
      fold w1 in Hc1, Ht1, Hn1, Hch1.
      assert (waitForSlack w1 = None) as Hnone
        by (rewrite Ht1; apply injected_waitForSlack).
      destruct (poll_idle v pages w1 Hnone) as (Ht & Hc & Hn & Hch).
      exists w0. split; [done|]. split; [exact Ht|].
      rewrite Hc, Hn, Hch, Hc1, Hn1, Hch1. done.
    + apply orb_false_iff in Hfire as (_ & Hle%Z.leb_gt).
      destruct (IH (set_waitForSlack
                      (Some (PollState (collapsedStates p) (elapsed p + interval)%Z))
                      (set_host_page page w))
                   (PollState (collapsedStates p) (elapsed p + interval)%Z))
        as (w0 & Hsame & Hrest).
      * reflexivity.
      * exact Hle.
      * cbn [elapsed length] in *. unfold interval, maxWait in *. lia.
      * exists w0. split; [exact Hsame | exact Hrest].
Qed.

(** C3. On a fresh load (no control in the document yet) where the store
    that is read holds no entry for the key of any flag of the script and
    the read reports no error, every read resolves to false; [init] then
    starts the polling timer, the timer fires within fifty ticks whatever
    the host page looks like, and once it has fired none of the marker
    classes of the script is on the body, and every flag has a control in
    the body that shows the expanded state. *)
Theorem fresh_load_expanded (v : variant) (w : world)
    (pages : list (list host_element)) :
  element_by_id BTN_TOP_ID w = None →
  (∀ f, f ∈ flags v → no_entry (STORAGE_KEY f) w) →
  50 ≤ length pages →
  (∀ f, f ∈ flags v → getStoredState (STORAGE_KEY f) w = Normal (Resolved false) w) ∧
  waitForSlack (poll v pages (run_init v w)) = None ∧
  (∀ f, f ∈ flags v →
   body_has (CLASS f) (poll v pages (run_init v w)) = false ∧
   ∃ r, r ∈ body_children (poll v pages (run_init v w)) ∧
        control f r (poll v pages (run_init v w)) ∧
        reflects f r (poll v pages (run_init v w))).
Proof.
  intros Hfresh Hn Hlen.
  split; [intros f Hf; by apply getStoredState_no_entry, Hn|].
  unfold run_init, run_callback. rewrite (init_fresh v w Hfresh Hn).
  set (states := map (fun _ => false) (flags v)).
  destruct (poll_fires v pages (set_waitForSlack (Some (PollState states 0%Z)) w)
              (PollState states 0%Z)) as (w0 & _ & Ht & Hc & Hnodes & Hch).
  { reflexivity. }
  { reflexivity. }
  { cbn [elapsed]. unfold maxWait, interval. lia. }
  split; [exact Ht|]. intros f Hf.
  cbn [collapsedStates] in Hc, Hnodes, Hch.
  destruct (injected_control v states w0 f Hf) as (Hctl & Hrefl).
  pose proof (injected_children v states w0 f Hf) as Hin.
  pose proof (injected_body_has v states w0 f Hf) as Hb.
  assert (nth (flag_index f) states false = false) as Hfalse
    by (subst states; destruct v, f; reflexivity).
  unfold control, reflects, body_has, innerHTML_of, attribute_of in *.
  rewrite Hc, Hnodes, Hch. split; [by rewrite Hb|].
  exists (length (nodes w0) + flag_index f). done.
Qed.

Lemma fresh_load_expanded_witness :
  waitForSlack (poll ThreeToggle (replicate 50 []) (run_init ThreeToggle blank_world))
  = None ∧
  body_has CLASS_LEFT
    (poll ThreeToggle (replicate 50 []) (run_init ThreeToggle blank_world)) = false.
Proof.
  assert (element_by_id BTN_TOP_ID blank_world = None) as Hfresh by reflexivity.
  assert (∀ f, f ∈ flags ThreeToggle → no_entry (STORAGE_KEY f) blank_world) as Hn.
  { intros f _. left. split; [reflexivity|]. split; [reflexivity|].
    apply lookup_empty. }
  assert (50 ≤ length (replicate 50 ([] : list host_element))) as Hlen
    by (vm_compute; lia).
  destruct (fresh_load_expanded ThreeToggle blank_world (replicate 50 [])
              Hfresh Hn Hlen) as (_ & Ht & Hb).
  split; [exact Ht|]. apply (Hb Left). apply flags_Left.
Defined.

(** The same page, evaluated: the timeout path injects three buttons and
    logs the warning. *)
Example timeout_injects_anyway :
  let w := poll ThreeToggle (replicate 50 []) (run_init ThreeToggle blank_world) in
  body_children w = [0; 1; 2] ∧
  body_classList w = ["theme-dark"] ∧
  console w = ["[Slack VC] Timed out waiting for Slack UI. Buttons injected anyway."].
Proof. vm_compute. done. Qed.

(** With 49 ticks and no container the timer is still running. *)
Example timer_still_running :
  waitForSlack (poll ThreeToggle (replicate 49 []) (run_init ThreeToggle blank_world))
  = Some (PollState [false; false; false] 14700%Z).
Proof. vm_compute. reflexivity. Qed.

(** C5, as amended.  When the top control, the one whose id the guard looks
    up, is in the document, [init] returns at once: the world is unchanged,
    so no element is created or appended and no timer is started.  If no
    timer of an earlier [init] is running, later ticks add nothing either,
    and every id keeps exactly the elements it had. *)
Theorem init_again_is_noop (v : variant) (w : world) (r : nat) :
  element_by_id BTN_TOP_ID w = Some r →
  init v w = Normal tt w ∧
  run_init v w = w ∧
  (waitForSlack w = None → ∀ pages i,
   nodes (poll v pages (run_init v w)) = nodes w ∧
   body_children (poll v pages (run_init v w)) = body_children w ∧
   elements_with_id i (poll v pages (run_init v w)) = elements_with_id i w).
Proof.
  intros H. pose proof (init_guard v w r H) as Hi.
  assert (run_init v w = w) as Hr by (unfold run_init, run_callback; by rewrite Hi).
  split; [exact Hi|]. split; [exact Hr|].
  intros Hnone pages i. rewrite Hr.
  destruct (poll_idle v pages w Hnone) as (_ & _ & Hn & Hc).
  split; [exact Hn|]. split; [exact Hc|].
  unfold elements_with_id, has_id. by rewrite Hn, Hc.
Qed.

Lemma init_again_is_noop_witness :
  run_init ThreeToggle (loaded ThreeToggle) = loaded ThreeToggle ∧
  elements_with_id BTN_BOTTOM_ID
    (poll ThreeToggle [slack_page] (run_init ThreeToggle (loaded ThreeToggle)))
  = elements_with_id BTN_BOTTOM_ID (loaded ThreeToggle).
Proof.
  assert (element_by_id BTN_TOP_ID (loaded ThreeToggle) = Some 0) as H
    by (vm_compute; reflexivity).
  destruct (init_again_is_noop ThreeToggle (loaded ThreeToggle) 0 H) as (_ & Hr & Hp).
  split; [exact Hr|].
  apply Hp. vm_compute. reflexivity.
Defined.

(** C5 as stated fails: with the bottom control of an earlier
    initialization in the document and the top control gone, [init] is not
    a no-op; it starts the timer, and the next tick appends a second bottom
    control. *)
Lemma init_again_counterexample :
  element_by_id BTN_BOTTOM_ID bottom_only_world = Some 1 ∧
  control Bottom 1 bottom_only_world ∧
  elements_with_id BTN_BOTTOM_ID bottom_only_world = [1] ∧
  run_init TwoToggle bottom_only_world ≠ bottom_only_world ∧
  elements_with_id BTN_BOTTOM_ID
    (poll TwoToggle [slack_page] (run_init TwoToggle bottom_only_world)) = [1; 3].
Proof.
  repeat (split; [vm_compute; reflexivity|]).
  split; [|vm_compute; reflexivity].
  intros H. apply (f_equal waitForSlack) in H. vm_compute in H. discriminate H.
Qed.

(** ** Keyboard shortcuts *)

Lemma toLowerCase_shortcut f k :
  k = shortcut f ∨ k = shortcut_capital f → toLowerCase k = shortcut f.
Proof. intros [-> | ->]; destruct f; reflexivity. Qed.

(** C4. For every flag the script has a control for, a keydown with Alt and
    Shift held and the letter of the flag, small or capital, ends in the very
    world one click on the control found under the id of the flag ends in:
    body classes, buttons and both stores are the same.  The listener also
    cancels the default action of the key. *)
Theorem shortcut_is_click (v : variant) (f : flag) (e : KeyboardEvent)
    (r : nat) (w : world) :
  f ∈ flags v →
  altKey e = true → shiftKey e = true →
  key e = shortcut f ∨ key e = shortcut_capital f →
  element_by_id (BTN_ID f) w = Some r →
  keydown v e w = Normal (preventDefault e) (dispatch_click r w) ∧
  dispatch_keydown v e w = dispatch_click r w.
Proof.
  intros Hf Ha Hs Hk Hr. apply toLowerCase_shortcut in Hk.
  assert (keydown v e w = Normal (preventDefault e) (dispatch_click r w)) as H.
  { destruct (flags_cases v f Hf) as [-> | [-> | [-> ->]]];
      [destruct v | destruct v |];
      cbv [keydown ContentJs.keydown Part000.keydown]; rewrite Ha, Hs, Hk;
      cbn [andb shortcut BTN_ID] in *;
      repeat (case_bool_decide; try (discriminate || congruence));
      cbv [bind getElementById get]; rewrite Hr; reflexivity. }
  split; [exact H|]. unfold dispatch_keydown, run_callback. by rewrite H.
Qed.

Lemma shortcut_is_click_witness :
  dispatch_keydown ThreeToggle (KeyEvent true true "L" false) (loaded ThreeToggle)
  = dispatch_click 2 (loaded ThreeToggle) ∧
  dispatch_keydown TwoToggle (KeyEvent true true "j" false) (loaded TwoToggle)
  = dispatch_click 1 (loaded TwoToggle).
Proof.
  split.
  - apply (shortcut_is_click ThreeToggle Left (KeyEvent true true "L" false) 2
             (loaded ThreeToggle)).
    + apply flags_Left.
    + reflexivity.
    + reflexivity.
    + right. reflexivity.
    + vm_compute. reflexivity.
  - apply (shortcut_is_click TwoToggle Bottom (KeyEvent true true "j" false) 1
             (loaded TwoToggle)).
    + apply flags_Bottom.
    + reflexivity.
    + reflexivity.
    + left. reflexivity.
    + vm_compute. reflexivity.
Defined.

(** Without both modifiers, or in [part_000] with the letter of the left
    flag, the listener does nothing. *)
Example keydown_without_shift :
  dispatch_keydown ThreeToggle (KeyEvent true false "h" false) (loaded ThreeToggle)
  = loaded ThreeToggle.
Proof. vm_compute. reflexivity. Qed.

Example keydown_left_in_two_toggle :
  keydown TwoToggle (KeyEvent true true "l" false) (loaded TwoToggle)
  = Normal (KeyEvent true true "l" false) (loaded TwoToggle).
Proof. vm_compute. reflexivity. Qed.

(** ** The positioning loop *)

(** The computation of [targetLeft] only reads. *)
Lemma targetLeft_reads w : ∃ t, ContentJs.targetLeft w = Normal t w.
Proof.
  cbv [ContentJs.targetLeft bind classList_contains get querySelector_or
       querySelector ret].
  destruct (negb _).
  - destruct (List.find _ (host_page w)) as [r|];
      destruct (List.find _ (host_page w)) as [s|];
      try destruct (List.find _ (host_page w));
      try destruct (PrimFloat.ltb _ _); eexists; reflexivity.
  - destruct (List.find _ (host_page w)) as [t|];
      try destruct (List.find _ (host_page w)); eexists; reflexivity.
Qed.

(** The tick, with the sequencing spelled out. *)
Lemma positionLeftButton_unfold (Number_toString : float → string) (w : world) :
  ContentJs.positionLeftButton Number_toString w
  = match element_by_id BTN_LEFT_ID w with
    | None => Normal tt w
    | Some r =>
        match ContentJs.targetLeft w with
        | Normal target w' =>
            if PrimFloat.ltb 0%float target then
              if bool_decide (Number_toString target +:+ "px" ≠ lastLeftPos w') then
                Normal tt
                  (set_lastLeftPos (Number_toString target +:+ "px")
                     (set_nodes
                        (alter (with_style "left" (Number_toString target +:+ "px"))
                           r (nodes w')) w'))
              else Normal tt w'
            else Normal tt w'
        | Throw exn w' => Throw exn w'
        end
    end.
Proof.
  unfold ContentJs.positionLeftButton. unfold bind at 1. cbv [getElementById get].
  destruct (element_by_id BTN_LEFT_ID w) as [r|]; [|reflexivity].
  unfold bind at 1. destruct (ContentJs.targetLeft w) as [t w'|]; [|reflexivity].
  destruct (PrimFloat.ltb 0%float t); [|reflexivity].
  unfold bind at 1. cbv [get].
  destruct (bool_decide _); reflexivity.
Qed.

(** C7. On every tick of the positioning loop, for every host page, either
    nothing at all changes, or the computed [targetLeft] is strictly greater
    than zero and the tick writes that number with the unit px to the left
    style of the left button (and to [lastLeftPos]) and changes nothing
    else.  So no write of a zero, negative or NaN offset ever happens. *)
Theorem positioning_only_positive (Number_toString : float → string) (w : world) :
  ContentJs.positionLeftButton Number_toString w = Normal tt w ∨
  ∃ r target,
    element_by_id BTN_LEFT_ID w = Some r ∧
    ContentJs.targetLeft w = Normal target w ∧
    PrimFloat.ltb 0%float target = true ∧
    Number_toString target +:+ "px" ≠ lastLeftPos w ∧
    ContentJs.positionLeftButton Number_toString w
    = Normal tt
        (set_lastLeftPos (Number_toString target +:+ "px")
           (set_nodes
              (alter (with_style "left" (Number_toString target +:+ "px")) r (nodes w))
              w)).
Proof.
  destruct (targetLeft_reads w) as [t Ht].
  rewrite positionLeftButton_unfold, Ht.
  destruct (element_by_id BTN_LEFT_ID w) as [r|] eqn:Hr; [|by left].
  destruct (PrimFloat.ltb 0%float t) eqn:Hpos; [|by left].
  destruct (decide (Number_toString t +:+ "px" ≠ lastLeftPos w)) as [Hne|Heq].
  - right. exists r, t. rewrite (bool_decide_true _ Hne). done.
  - left. by rewrite (bool_decide_false _ Heq).
Qed.

Lemma append_px_nonempty s : s +:+ "px" ≠ "".
Proof. destruct s; discriminate. Qed.

(** The loop on the sample page: the resizer is at 326, so the button goes
    to 326 + 4 - 14 = 316; with the sidebar collapsed the tab rail ends at
    70 and the button goes to 56. *)
Example positioning_expanded (Number_toString : float → string) :
  ContentJs.targetLeft (loaded ThreeToggle) = Normal 316%float (loaded ThreeToggle) ∧
  style_of 2 "left"
    (final (ContentJs.positionLeftButton Number_toString (loaded ThreeToggle)))
  = Some (Number_toString 316%float +:+ "px").
Proof.
  assert (ContentJs.targetLeft (loaded ThreeToggle)
          = Normal 316%float (loaded ThreeToggle)) as Ht by (vm_compute; reflexivity).
  split; [exact Ht|].
  rewrite positionLeftButton_unfold, Ht.
  replace (element_by_id BTN_LEFT_ID (loaded ThreeToggle)) with (Some 2)
    by (vm_compute; reflexivity).
  change (PrimFloat.ltb 0%float 316%float) with true. cbv iota.
  replace (lastLeftPos (loaded ThreeToggle)) with EmptyString by (vm_compute; reflexivity).
  rewrite (bool_decide_true _ (append_px_nonempty _)).
  vm_compute. reflexivity.
Qed.

Example positioning_collapsed (Number_toString : float → string) :
  let w := dispatch_click 2 (loaded ThreeToggle) in
  ContentJs.targetLeft w = Normal 56%float w ∧
  style_of 2 "left" (final (ContentJs.positionLeftButton Number_toString w))
  = Some (Number_toString 56%float +:+ "px").
Proof.
  intros w.
  assert (ContentJs.targetLeft w = Normal 56%float w) as Ht by (vm_compute; reflexivity).
  split; [exact Ht|].
  rewrite positionLeftButton_unfold, Ht.
  replace (element_by_id BTN_LEFT_ID w) with (Some 2) by (vm_compute; reflexivity).
  change (PrimFloat.ltb 0%float 56%float) with true. cbv iota.
  replace (lastLeftPos w) with EmptyString by (vm_compute; reflexivity).
  rewrite (bool_decide_true _ (append_px_nonempty _)).
  vm_compute. reflexivity.
Qed.

(** With no host element to anchor to, [targetLeft] stays 0 and the tick
    writes nothing. *)
Example positioning_without_anchor (Number_toString : float → string) :
  let w := set_host_page [] (loaded ThreeToggle) in
  ContentJs.targetLeft w = Normal 0%float w ∧
  ContentJs.positionLeftButton Number_toString w = Normal tt w.
Proof.
  intros w.
  assert (ContentJs.targetLeft w = Normal 0%float w) as Ht by (vm_compute; reflexivity).
  split; [exact Ht|].
  rewrite positionLeftButton_unfold, Ht.
  replace (element_by_id BTN_LEFT_ID w) with (Some 2) by (vm_compute; reflexivity).
  reflexivity.
Qed.

(** A sidebar that ends left of 14 gives a negative target, and no write. *)
Example positioning_negative_target (Number_toString : float → string) :
  let w := set_host_page [HostElement ["p-ia4_client__sidebar"] 0%float 10%float]
             (loaded ThreeToggle) in
  ContentJs.targetLeft w = Normal (-4)%float w ∧
  ContentJs.positionLeftButton Number_toString w = Normal tt w.
Proof.
  intros w.
  assert (ContentJs.targetLeft w = Normal (-4)%float w) as Ht by (vm_compute; reflexivity).
  split; [exact Ht|].
  rewrite positionLeftButton_unfold, Ht.
  replace (element_by_id BTN_LEFT_ID w) with (Some 2) by (vm_compute; reflexivity).
  reflexivity.
Qed.

(** * Further properties of the storage helpers *)

(** X1. When a write goes through, to the extension store or, the
    extension call throwing, to page-local storage, [setStoredState] completes
    normally and a read of the same key right after resolves to the value
    written, whatever the key held before. *)
Theorem setStoredState_then_getStoredState (key : string) (v : bool) (w : world) :
  writable w →
  setStoredState key v w = Normal tt (run_callback (setStoredState key v) w) ∧
  getStoredState key (run_callback (setStoredState key v) w)
  = Normal (Resolved v) (run_callback (setStoredState key v) w).
Proof.
  intros Hw.
  destruct (setStoredState_environment key v w) as (Ht & He).
  destruct Hw as [(Hthr & Herr) | (Hthr & m & Hm)].
  - split.
    + destruct w as [? ? ? ? thr err ? ls ? ? ?]. cbn in *. by subst.
    + rewrite getStoredState_extension by congruence.
      rewrite setStoredState_extension by congruence.
      rewrite lookup_insert_eq. by destruct v.
  - split.
    + destruct w as [? ? ? ? thr err ? ls ? ? ?]. cbn in *. by subst.
    + rewrite (getStoredState_fallback _ _ (<[key := String_of_bool v]> m)).
      * rewrite lookup_insert_eq. by destruct v.
      * congruence.
      * by apply setStoredState_fallback.
Qed.

Lemma setStoredState_then_getStoredState_witness :
  getStoredState STORAGE_KEY_LEFT
    (run_callback (setStoredState STORAGE_KEY_LEFT true) blank_world)
  = Normal (Resolved true)
      (run_callback (setStoredState STORAGE_KEY_LEFT true) blank_world) ∧
  getStoredState STORAGE_KEY_TOP
    (run_callback (setStoredState STORAGE_KEY_TOP false) fallback_world)
  = Normal (Resolved false)
      (run_callback (setStoredState STORAGE_KEY_TOP false) fallback_world).
Proof.
  split.
  - apply (setStoredState_then_getStoredState STORAGE_KEY_LEFT true blank_world).
    left. split; reflexivity.
  - apply (setStoredState_then_getStoredState STORAGE_KEY_TOP false fallback_world).
    right. split; [reflexivity | eexists; reflexivity].
Defined.

(** X2. A write to one key leaves every other key as it reads: for
    [key' ≠ key], [getStoredState key'] resolves, or is rejected, after
    [setStoredState key v] as it did before. *)
Theorem setStoredState_keeps_other_reads (key key' : string) (v : bool) (w : world) :
  key' ≠ key →
  ∀ p w1, getStoredState key' w = Normal p w1 →
  ∃ w2, getStoredState key' (run_callback (setStoredState key v) w) = Normal p w2.
Proof.
  intros Hne p w1.
  destruct w as [cl ch ns hp thr err loc ls con llp tmr].
  destruct thr, err as [msg|], ls as [m|]; cbn; intros H; eexists.
  all: try exact H.
  all: revert H;
    cbv [getStoredState new_Promise try_catch chrome_storage_local_get bind
         chrome_runtime_lastError get ret chrome_throws chrome_lastError chrome_local
         localStorage localStorage_getItem property console_warn modify set_console
         console body_classList body_children nodes host_page lastLeftPos
         waitForSlack];
    cbn; rewrite ?lookup_insert_ne by done; intros H;
    injection H as <- _; reflexivity.
Qed.

Lemma setStoredState_keeps_other_reads_witness :
  ∃ w2, getStoredState STORAGE_KEY_TOP
          (run_callback (setStoredState STORAGE_KEY_BOTTOM false) fallback_world)
        = Normal (Resolved true) w2.
Proof.
  assert (STORAGE_KEY_TOP ≠ STORAGE_KEY_BOTTOM) as Hne by discriminate.
  apply (setStoredState_keeps_other_reads STORAGE_KEY_BOTTOM STORAGE_KEY_TOP false
           fallback_world Hne (Resolved true) fallback_world).
  vm_compute. reflexivity.
Defined.





(** X4. [getStoredState] never throws at its caller and never changes the
    page or a store: the world after the call is the world before, plus the
    warning when the read failed through the callback.  Its promise is
    rejected exactly when the extension call throws and page-local storage
    is denied. *)
Theorem getStoredState_effects (key : string) (w : world) :
  ∃ p, getStoredState key w = Normal p (after_read w) ∧
       (is_rejected p ↔ chrome_throws w = true ∧ localStorage w = None).
Proof.
  destruct w as [cl ch ns hp thr err loc ls con llp tmr].
  destruct thr, err as [msg|], ls as [m|]; eexists; (split; [reflexivity|]);
    cbn; split; try tauto; try (intros [? ?]; discriminate).
Qed.

(** X5. When every storage read is rejected (the extension call throws and
    page-local storage is denied), [init] stops at the [await]: the rejection
    is reported on the console, no polling timer is started, and however many
    ticks go by no control is created and no class is touched. *)
Theorem init_stops_when_reads_reject (v : variant) (w : world)
    (pages : list (list host_element)) :
  element_by_id BTN_TOP_ID w = None →
  chrome_throws w = true → localStorage w = None →
  waitForSlack w = None →
  run_init v w
  = set_console (console w ++ ["Uncaught SecurityError: access to localStorage is denied"]) w ∧
  waitForSlack (poll v pages (run_init v w)) = None ∧
  nodes (poll v pages (run_init v w)) = nodes w ∧
  body_children (poll v pages (run_init v w)) = body_children w ∧
  body_classList (poll v pages (run_init v w)) = body_classList w.
Proof.
  intros Hfresh Hthr Hls Htimer.
  assert (run_init v w
          = set_console
              (console w ++ ["Uncaught SecurityError: access to localStorage is denied"])
              w) as Hr.
  { unfold run_init, run_callback.
    destruct v; cbv [init ContentJs.init Part000.init]; unfold bind at 1;
      cbv [getElementById get]; rewrite Hfresh;
      repeat (unfold bind at 1; rewrite (getStoredState_rejected _ w Hthr Hls));
      reflexivity. }
  split; [exact Hr|]. rewrite Hr.
  destruct (poll_idle v pages
              (set_console
                 (console w ++ ["Uncaught SecurityError: access to localStorage is denied"])
                 w)) as (Ht & Hc & Hn & Hch).
  { exact Htimer. }
  rewrite Ht, Hc, Hn, Hch. done.
Qed.

Lemma init_stops_when_reads_reject_witness :
  nodes (poll ThreeToggle (replicate 60 slack_page)
           (run_init ThreeToggle (set_localStorage None (set_body_children [] fallback_world))))
  = [].
Proof.
  apply (init_stops_when_reads_reject ThreeToggle
           (set_localStorage None (set_body_children [] fallback_world))
           (replicate 60 slack_page)); reflexivity.
Defined.

(** * Further properties of initialization *)

(** What a read resolves to depends on the stores and their failures only. *)
Lemma getStoredState_same_storage key w w' p w1 :
  same_storage w w' →
  getStoredState key w = Normal p w1 →
  getStoredState key w' = Normal p (after_read w').
Proof.
  destruct w as [cl ch ns hp thr err loc ls con llp tmr].
  destruct w' as [cl' ch' ns' hp' thr' err' loc' ls' con' llp' tmr'].
  intros (Ht & He & Hc & Hl). cbn in Ht, He, Hc, Hl. subst.
  destruct thr, err as [msg|], ls as [m|]; intros H;
    cbv [getStoredState new_Promise try_catch chrome_storage_local_get bind
         chrome_runtime_lastError get ret chrome_throws chrome_lastError chrome_local
         localStorage localStorage_getItem property console_warn modify] in H |- *;
    cbn in H |- *; injection H as <- _; reflexivity.
Qed.

Lemma after_read_same_storage w : same_storage w (after_read w).
Proof. unfold after_read. by destruct (_ && _). Qed.

Lemma after_read_fields w :
  body_classList (after_read w) = body_classList w ∧
  body_children (after_read w) = body_children w ∧
  nodes (after_read w) = nodes w.
Proof. unfold after_read. by destruct (_ && _). Qed.

(** [init] on a page without the top control, when every read resolves:
    the timer starts with the array of the values read. *)
Lemma init_resolved v (s : flag → bool) w :
  element_by_id BTN_TOP_ID w = None →
  (∀ f, f ∈ flags v →
   getStoredState (STORAGE_KEY f) w = Normal (Resolved (s f)) (after_read w)) →
  ∃ w0,
    (body_classList w0 = body_classList w ∧ body_children w0 = body_children w ∧
     nodes w0 = nodes w) ∧
    init v w = Normal tt (set_waitForSlack (Some (PollState (map s (flags v)) 0%Z)) w0).
Proof.
  intros Hfresh Hs.
  pose proof (Hs Top (flags_Top v)) as H1.
  pose proof (Hs Bottom (flags_Bottom v)) as H2.
  cbn [STORAGE_KEY] in H1, H2.
  pose proof (getStoredState_same_storage _ _ _ _ _ (after_read_same_storage w) H2) as H2'.
  destruct (after_read_fields w) as (Ha1 & Ha2 & Ha3).
  destruct (after_read_fields (after_read w)) as (Hb1 & Hb2 & Hb3).
  destruct v; cbv [init ContentJs.init Part000.init]; unfold bind at 1;
    cbv [getElementById get]; rewrite Hfresh.
  - exists (after_read (after_read w)). split; [by rewrite Hb1, Hb2, Hb3|].
    unfold bind at 1. rewrite H1. unfold bind at 1. rewrite H2'. reflexivity.
  - pose proof (Hs Left flags_Left) as H3. cbn [STORAGE_KEY] in H3.
    assert (same_storage w (after_read (after_read w))) as Hss.
    { destruct (after_read_same_storage w) as (? & ? & ? & ?).
      destruct (after_read_same_storage (after_read w)) as (? & ? & ? & ?).
      repeat split; congruence. }
    pose proof (getStoredState_same_storage _ _ _ _ _ Hss H3) as H3'.
    destruct (after_read_fields (after_read (after_read w))) as (Hc1 & Hc2 & Hc3).
    exists (after_read (after_read (after_read w))).
    split; [by rewrite Hc1, Hc2, Hc3, Hb1, Hb2, Hb3|].
    unfold bind at 1. rewrite H1. unfold bind at 1. rewrite H2'.
    unfold bind at 1. rewrite H3'. reflexivity.
Qed.

(** The page once a timer started with [states] has fired. *)
Lemma restored_after_poll v (s : flag → bool) pages w :
  waitForSlack w = Some (PollState (map s (flags v)) 0%Z) →
  50 ≤ length pages →
  waitForSlack (poll v pages w) = None ∧
  ∀ f, f ∈ flags v →
    body_has (CLASS f) (poll v pages w) = s f ∧
    ∃ r, r ∈ body_children (poll v pages w) ∧ control f r (poll v pages w) ∧
         reflects f r (poll v pages w).
Proof.
  intros Ht Hlen.
  destruct (poll_fires v pages w (PollState (map s (flags v)) 0%Z))
    as (w0 & _ & Ht' & Hc & Hnodes & Hch).
  { exact Ht. }
  { reflexivity. }
  { cbn [elapsed]. unfold maxWait, interval. lia. }
  split; [exact Ht'|]. intros f Hf.
  cbn [collapsedStates] in Hc, Hnodes, Hch.
  destruct (injected_control v (map s (flags v)) w0 f Hf) as (Hctl & Hrefl).
  pose proof (injected_children v (map s (flags v)) w0 f Hf) as Hin.
  pose proof (injected_body_has v (map s (flags v)) w0 f Hf) as Hb.
  assert (nth (flag_index f) (map s (flags v)) false = s f) as Hnth.
  { destruct (flags_cases v f Hf) as [-> | [-> | [-> ->]]];
      [destruct v | destruct v |]; reflexivity. }
  unfold control, reflects, body_has, innerHTML_of, attribute_of in *.
  rewrite Hc, Hnodes, Hch. rewrite Hnth in Hb.
  split; [exact Hb|].
  exists (length (nodes w0) + flag_index f). rewrite Hb in Hrefl. rewrite Hb. done.
Qed.

(** X6. [init] restores what is stored.  On a page without the top control
    where the read of each flag of the script resolves, to [s f] for the flag
    [f], the timer fires within fifty ticks and leaves the marker class of
    every flag on the body exactly when its stored state is true, with a
    control in the body for each flag that shows that state. *)
Theorem init_restores_stored_state (v : variant) (s : flag → bool) (w : world)
    (pages : list (list host_element)) :
  element_by_id BTN_TOP_ID w = None →
  (∀ f, f ∈ flags v →
   getStoredState (STORAGE_KEY f) w = Normal (Resolved (s f)) (after_read w)) →
  50 ≤ length pages →
  waitForSlack (poll v pages (run_init v w)) = None ∧
  ∀ f, f ∈ flags v →
    body_has (CLASS f) (poll v pages (run_init v w)) = s f ∧
    ∃ r, r ∈ body_children (poll v pages (run_init v w)) ∧
         control f r (poll v pages (run_init v w)) ∧
         reflects f r (poll v pages (run_init v w)).
Proof.
  intros Hfresh Hs Hlen.
  destruct (init_resolved v s w Hfresh Hs) as (w0 & _ & Hi).
  unfold run_init, run_callback. rewrite Hi.
  by apply restored_after_poll.
Qed.

Lemma init_restores_stored_state_witness :
  body_has CLASS_TOP
    (poll TwoToggle [slack_page] (run_init TwoToggle fallback_world)) = true ∧
  body_has CLASS_BOTTOM
    (poll TwoToggle (replicate 50 []) (run_init TwoToggle fallback_world)) = false.
Proof.
  assert (∀ pages, 50 ≤ length pages →
            ∀ f, f ∈ flags TwoToggle →
              body_has (CLASS f) (poll TwoToggle pages (run_init TwoToggle fallback_world))
              = match f with Top => true | _ => false end) as H.
  { intros pages Hlen f Hf.
    apply (init_restores_stored_state TwoToggle
             (fun f => match f with Top => true | _ => false end)
             fallback_world pages); [reflexivity | | exact Hlen | exact Hf].
    intros g _. destruct g; vm_compute; reflexivity. }
  split.
  - vm_compute. reflexivity.
  - apply (H (replicate 50 []) ltac:(vm_compute; lia) Bottom (flags_Bottom _)).
Defined.





(** * Further properties of toggling *)

(** X8. Any number of clicks.  After [n] clicks in a row on a control of
    [f] the marker class of [f] is where it was when [n] is even and flipped
    when [n] is odd; the element is still a control of [f], and after at
    least one click it shows the state of the class. *)
Theorem clicks_parity (f : flag) (r : nat) (n : nat) (w : world) :
  control f r w →
  body_has (CLASS f) (clicks n r w) = xorb (Nat.odd n) (body_has (CLASS f) w) ∧
  control f r (clicks n r w) ∧
  (0 < n → reflects f r (clicks n r w)).
Proof.
  revert w. induction n as [|n IH]; intros w H.
  - cbn. split; [reflexivity|]. split; [exact H | lia].
  - cbn [clicks].
    pose proof (dispatch_click_keeps_control f r w H) as H1.
    destruct (IH (dispatch_click r w) H1) as (Hb & Hc & Hr).
    split; [|split; [exact Hc|]].
    + rewrite Hb, (dispatch_click_body_has f r w H), Nat.odd_succ, <- Nat.negb_odd.
      by destruct (Nat.odd n), (body_has (CLASS f) w).
    + intros _. destruct n as [|n'].
      * cbn [clicks]. unfold control in H.
        destruct (nodes w !! r) as [e|] eqn:He; [|done].
        cbn in H. injection H as Hl. by apply (dispatch_click_reflects f r e).
      * apply Hr. lia.
Qed.

Lemma clicks_parity_witness :
  body_has CLASS_BOTTOM (clicks 7 1 (loaded TwoToggle)) = true ∧
  body_has CLASS_BOTTOM (clicks 10 1 (loaded TwoToggle)) = false.
Proof.
  assert (control Bottom 1 (loaded TwoToggle)) as H by (vm_compute; reflexivity).
  destruct (clicks_parity Bottom 1 7 (loaded TwoToggle) H) as (H7 & _).
  destruct (clicks_parity Bottom 1 10 (loaded TwoToggle) H) as (H10 & _).
  split; [etransitivity; [exact H7|] | etransitivity; [exact H10|]];
    vm_compute; reflexivity.
Defined.

Lemma toggle_token_idempotent cls b l :
  toggle_token cls b (toggle_token cls b l) = toggle_token cls b l.
Proof.
  destruct b.
  - unfold toggle_token at 1. by rewrite contains_toggle_token.
  - cbn. by apply list_filter_filter_l.
Qed.

Lemma insert_twice {V} (m : gmap string V) (k k' : string) (v v' : V) :
  k ≠ k' →
  <[k := v]> (<[k' := v']> (<[k := v]> (<[k' := v']> m))) = <[k := v]> (<[k' := v']> m).
Proof.
  intros Hne. apply map_eq. intros j. rewrite !lookup_insert.
  repeat case_decide; congruence.
Qed.

Lemma painted_idempotent f c e : painted f c (painted f c e) = painted f c e.
Proof.
  destruct e as [tg i cn ty html attrs sty ls].
  assert ("aria-label" ≠ "data-tooltip") as Ha by discriminate.
  assert ("transform" ≠ "top") as Hs by discriminate.
  destruct f;
    cbv [painted with_attribute with_innerHTML with_style el_tagName el_id
         el_className el_type el_innerHTML el_attributes el_style el_listeners];
    rewrite (insert_twice attrs "aria-label" "data-tooltip" _ _ Ha);
    rewrite ?(insert_twice sty "transform" "top" _ _ Hs); reflexivity.
Qed.

(** X9. [applyState] is idempotent: applying the same state to the same
    button twice in a row ends in the very world one application ends in.
    (The polling tick does this: the constructor applies the state, and the
    tick applies it again after appending the button.) *)
Theorem applyState_idempotent (f : flag) (c : bool) (btn : option nat) (w : world) :
  (applyState f c btn ;;; applyState f c btn) w = applyState f c btn w.
Proof.
  unfold bind. rewrite !applyState_applied.
  destruct w as [cl ch ns hp thr err loc ls con llp tmr].
  destruct btn as [r|]; unfold applied;
    cbv [set_body_classList set_nodes body_classList body_children nodes host_page
         chrome_throws chrome_lastError chrome_local localStorage console lastLeftPos
         waitForSlack];
    rewrite toggle_token_idempotent; [|reflexivity].
  rewrite list_alter_alter_eq.
  rewrite (list_alter_ext (painted f c ∘ painted f c) (painted f c) ns ns r);
    [reflexivity | | reflexivity].
  intros e _. apply painted_idempotent.
Qed.

(** * Further properties of the keydown listener *)

(** X10. What the keydown listener leaves alone.  Without both Alt and
    Shift, or with a key that is the letter of no flag of the script (so the
    letter of the left flag in [part_000]), the listener changes nothing and
    does not cancel the default action.  With the modifiers and the letter of
    a flag whose button is not in the document, it cancels the default action
    and changes nothing. *)
Theorem keydown_inert (v : variant) (e : KeyboardEvent) (w : world) :
  (altKey e && shiftKey e = false → keydown v e w = Normal e w) ∧
  ((∀ f, f ∈ flags v → toLowerCase (key e) ≠ shortcut f) →
   keydown v e w = Normal e w) ∧
  (∀ f, f ∈ flags v → altKey e = true → shiftKey e = true →
   toLowerCase (key e) = shortcut f → element_by_id (BTN_ID f) w = None →
   keydown v e w = Normal (preventDefault e) w).
Proof.
  split; [|split].
  - intros H. destruct v; cbv [keydown ContentJs.keydown Part000.keydown];
      rewrite H; reflexivity.
  - intros H.
    pose proof (H Top (flags_Top v)) as Ht. pose proof (H Bottom (flags_Bottom v)) as Hb.
    cbn [shortcut] in Ht, Hb.
    destruct v; cbv [keydown ContentJs.keydown Part000.keydown];
      destruct (altKey e && shiftKey e); try reflexivity;
      rewrite (bool_decide_false _ Ht), (bool_decide_false _ Hb); [reflexivity|].
    pose proof (H Left flags_Left) as Hl. cbn [shortcut] in Hl.
    by rewrite (bool_decide_false _ Hl).
  - intros f Hf Ha Hs Hk Hr.
    destruct (flags_cases v f Hf) as [-> | [-> | [-> ->]]];
      [destruct v | destruct v |];
      cbv [keydown ContentJs.keydown Part000.keydown]; rewrite Ha, Hs, Hk;
      cbn [andb shortcut BTN_ID] in *;
      repeat (case_bool_decide; try (discriminate || congruence));
      cbv [bind getElementById get]; rewrite Hr; reflexivity.
Qed.

Lemma keydown_inert_witness :
  keydown ThreeToggle (KeyEvent true false "h" false) (loaded ThreeToggle)
  = Normal (KeyEvent true false "h" false) (loaded ThreeToggle) ∧
  keydown TwoToggle (KeyEvent true true "L" false) (loaded TwoToggle)
  = Normal (KeyEvent true true "L" false) (loaded TwoToggle) ∧
  keydown ThreeToggle (KeyEvent true true "J" false) blank_world
  = Normal (KeyEvent true true "J" true) blank_world.
Proof.
  destruct (keydown_inert ThreeToggle (KeyEvent true false "h" false)
              (loaded ThreeToggle)) as (H1 & _ & _).
  destruct (keydown_inert TwoToggle (KeyEvent true true "L" false)
              (loaded TwoToggle)) as (_ & H2 & _).
  destruct (keydown_inert ThreeToggle (KeyEvent true true "J" false) blank_world)
    as (_ & _ & H3).
  split; [|split].
  - apply H1. reflexivity.
  - apply H2. intros f Hf.
    destruct (flags_cases _ f Hf) as [-> | [-> | [_ Hv]]];
      [discriminate | discriminate | discriminate Hv].
  - apply (H3 Bottom); [apply flags_Bottom | reflexivity ..].
Defined.

(** * Further properties of the positioning loop *)

(** [targetLeft] depends on the classes of the body and on the host page
    only. *)
Lemma targetLeft_depends w w' t :
  body_classList w' = body_classList w → host_page w' = host_page w →
  ContentJs.targetLeft w = Normal t w → ContentJs.targetLeft w' = Normal t w'.
Proof.
  destruct w as [cl ch ns hp thr err loc ls con llp tmr].
  destruct w' as [cl' ch' ns' hp' thr' err' loc' ls' con' llp' tmr'].
  cbn [body_classList host_page]. intros -> ->.
  cbv [ContentJs.targetLeft bind classList_contains get querySelector_or
       querySelector ret body_classList host_page].
  destruct (negb _).
  - destruct (List.find _ hp) as [r|];
      destruct (List.find _ hp) as [s|];
      try destruct (List.find _ hp);
      try destruct (PrimFloat.ltb _ _); intros [= <-]; reflexivity.
  - destruct (List.find _ hp) as [x|];
      try destruct (List.find _ hp); intros [= <-]; reflexivity.
Qed.

(** Writing a style changes no id. *)
Lemma element_by_id_with_style i k v r w :
  element_by_id i (set_nodes (alter (with_style k v) r (nodes w)) w) = element_by_id i w.
Proof.
  unfold element_by_id.
  destruct w as [cl ch ns hp thr err loc ls con llp tmr]. cbn.
  induction ch as [|c ch IH]; [reflexivity|]. cbn [List.find].
  assert (has_id i (World cl (c :: ch) (alter (with_style k v) r ns) hp thr err loc ls
                      con llp tmr) c
          = has_id i (World cl (c :: ch) ns hp thr err loc ls con llp tmr) c) as Hid.
  { unfold has_id. cbn. rewrite list_lookup_alter.
    destruct (decide (r = c)) as [->|]; [|reflexivity].
    by destruct (ns !! c). }
  unfold has_id in *. cbn in *. rewrite Hid.
  destruct (match ns !! c with Some e => _ | None => false end); [reflexivity|].
  apply IH.
Qed.

(** X11. The positioning loop settles: on a page that does not change, the
    tick right after a tick writes nothing, since the offset it computes is
    the one [lastLeftPos] already holds. *)
Theorem positioning_settles (Number_toString : float → string) (w : world) :
  ContentJs.positionLeftButton Number_toString
    (final (ContentJs.positionLeftButton Number_toString w))
  = Normal tt (final (ContentJs.positionLeftButton Number_toString w)).
Proof.
  destruct (targetLeft_reads w) as [t Ht].
  rewrite (positionLeftButton_unfold Number_toString w), Ht.
  destruct (element_by_id BTN_LEFT_ID w) as [r|] eqn:Hr.
  2: { cbn [final]. rewrite positionLeftButton_unfold, Hr. reflexivity. }
  destruct (PrimFloat.ltb 0%float t) eqn:Hpos.
  2: { cbn [final]. rewrite positionLeftButton_unfold, Hr, Ht, Hpos. reflexivity. }
  destruct (decide (Number_toString t +:+ "px" ≠ lastLeftPos w)) as [Hne|Heq].
  - rewrite (bool_decide_true _ Hne). cbn [final].
    set (w1 := set_lastLeftPos _ _).
    assert (ContentJs.targetLeft w1 = Normal t w1) as Ht1
      by (apply (targetLeft_depends w); [reflexivity | reflexivity | exact Ht]).
    assert (element_by_id BTN_LEFT_ID w1 = Some r) as Hr1.
    { rewrite <- Hr. subst w1.
      rewrite <- (element_by_id_with_style BTN_LEFT_ID "left"
                    (Number_toString t +:+ "px") r w).
      reflexivity. }
    rewrite positionLeftButton_unfold, Hr1, Ht1, Hpos.
    rewrite bool_decide_false; [reflexivity|].
    subst w1. cbn. intros Hc. by apply Hc.
  - rewrite (bool_decide_false _ Heq). cbn [final].
    rewrite positionLeftButton_unfold, Hr, Ht, Hpos.
    by rewrite (bool_decide_false _ Heq).
Qed.

(** * Further properties of the polling timer *)







(** * The invariant of the reachable states *)

Lemma bare_no_control w f r : bare w → ¬ control f r w.
Proof.
  unfold bare, control. intros Hb Hc.
  destruct (nodes w !! r) as [e|] eqn:He; [|done].
  cbn in Hc. rewrite (Hb r e He) in Hc. discriminate Hc.
Qed.

Lemma bare_consistent v w : bare w → consistent v w.
Proof.
  intros Hb. split; [|split; [|split]].
  - intros r e He. left. by apply (Hb r e).
  - intros f r r' H. by destruct (bare_no_control w f r Hb).
  - intros f r H. by destruct (bare_no_control w f r Hb).
  - intros _. exact Hb.
Qed.

(** The invariant looks at the element store, the classes of the body and
    whether the timer runs. *)
Lemma consistent_ext v w w' :
  nodes w' = nodes w → body_classList w' = body_classList w →
  (is_Some (waitForSlack w') → is_Some (waitForSlack w)) →
  consistent v w → consistent v w'.
Proof.
  intros Hn Hc Ht (H1 & H2 & H3 & H4).
  unfold consistent, only_controls, one_control_per_flag, in_sync, pending_is_bare,
    bare, control, reflects, body_has, innerHTML_of, attribute_of in *.
  rewrite Hn, Hc.
  split; [exact H1 | split; [exact H2 | split; [exact H3 |]]].
  intros Ht'. apply H4, Ht, Ht'.
Qed.

(** [init] touches the console and the timer, nothing else. *)
Lemma run_init_shape v w :
  ∃ c t, run_init v w = set_waitForSlack t (set_console c w).
Proof.
  destruct w as [cl ch ns hp thr err loc ls con llp tmr].
  unfold run_init, run_callback.
  destruct v; cbv [init ContentJs.init Part000.init]; unfold bind at 1;
    cbv [getElementById get];
    (destruct (element_by_id BTN_TOP_ID _); [by exists con, tmr|]);
    destruct thr, err as [msg|], ls as [m|];
    cbv [getStoredState new_Promise try_catch chrome_storage_local_get bind
         chrome_runtime_lastError get ret throw chrome_throws chrome_lastError
         chrome_local localStorage localStorage_getItem property console_warn modify
         await_all set_console set_waitForSlack console body_classList body_children
         nodes host_page lastLeftPos waitForSlack];
    cbn [bool_decide decide_rel is_Some_dec]; eexists _, _; reflexivity.
Qed.

Lemma run_init_fields v w :
  nodes (run_init v w) = nodes w ∧ body_classList (run_init v w) = body_classList w ∧
  body_children (run_init v w) = body_children w.
Proof. destruct (run_init_shape v w) as (c & t & ->). done. Qed.

Lemma setStoredState_waitForSlack key v w :
  waitForSlack (run_callback (setStoredState key v) w) = waitForSlack w.
Proof.
  destruct w as [? ? ? ? thr err ? ls ? ? ?]. by destruct thr, err, ls.
Qed.

Lemma dispatch_click_waitForSlack f r w :
  control f r w → waitForSlack (dispatch_click r w) = waitForSlack w.
Proof.
  intros H. rewrite (dispatch_click_applied f r w H).
  rewrite setStoredState_waitForSlack. apply applied_waitForSlack.
Qed.

(** A click on an element without a listener, or on no element, does
    nothing. *)
Lemma dispatch_click_no_listener r w :
  (∀ e, nodes w !! r = Some e → el_listeners e = []) → dispatch_click r w = w.
Proof.
  intros H. unfold dispatch_click. destruct (nodes w !! r) as [e|]; [|done].
  by rewrite (H e eq_refl).
Qed.

Lemma dispatch_click_control_iff f g r r' w :
  control f r w → (control g r' (dispatch_click r w) ↔ control g r' w).
Proof.
  intros H. unfold control.
  destruct (decide (r = r')) as [<-|Hne].
  - rewrite (dispatch_click_lookup f r w H).
    destruct (nodes w !! r) as [e|]; [|done]. cbn. by rewrite painted_listeners.
  - by rewrite (dispatch_click_lookup_ne f r r' w H Hne).
Qed.

Lemma click_consistent v r w : consistent v w → consistent v (dispatch_click r w).
Proof.
  intros Hcons. pose proof Hcons as (H1 & H2 & H3 & H4).
  destruct (nodes w !! r) as [e|] eqn:He.
  2: { rewrite dispatch_click_no_listener; [done | intros e; congruence]. }
  destruct (H1 r e He) as [Hl | (f & Hf & Hl)].
  { rewrite dispatch_click_no_listener; [done | intros e'; congruence]. }
  assert (control f r w) as Hc by (unfold control; rewrite He; cbn; by rewrite Hl).
  split; [|split; [|split]].
  - intros r' e' He'. destruct (decide (r = r')) as [<-|Hne].
    + rewrite (dispatch_click_lookup f r w Hc), He in He'. cbn in He'.
      injection He' as <-. rewrite painted_listeners. right. eauto.
    + rewrite (dispatch_click_lookup_ne f r r' w Hc Hne) in He'. by apply (H1 r').
  - intros g r1 r2 Hg1 Hg2.
    apply (dispatch_click_control_iff f g r r1 w Hc) in Hg1.
    apply (dispatch_click_control_iff f g r r2 w Hc) in Hg2. by apply (H2 g).
  - intros g r' Hg. pose proof Hg as Hg'.
    apply (dispatch_click_control_iff f g r r' w Hc) in Hg'.
    destruct (decide (r = r')) as [<-|Hne].
    + assert (g = f) as -> by (unfold control in Hc, Hg'; congruence).
      by apply (dispatch_click_reflects f r e).
    + assert (g ≠ f) as Hgf by (intros ->; apply Hne; by apply (H2 f)).
      assert (CLASS g ≠ CLASS f) as Hcls by (intros E; by apply Hgf, CLASS_inj).
      pose proof (H3 g r' Hg') as Hrefl.
      unfold reflects, innerHTML_of, attribute_of in *.
      rewrite (dispatch_click_lookup_ne f r r' w Hc Hne).
      by rewrite (dispatch_click_body_has_ne f r w (CLASS g) Hc Hcls).
  - intros Ht. rewrite (dispatch_click_waitForSlack f r w Hc) in Ht.
    destruct (bare_no_control w f r (H4 Ht) Hc).
Qed.

(** A keydown does what a click on some element does, or nothing. *)
Lemma dispatch_keydown_cases v e w :
  dispatch_keydown v e w = w ∨ ∃ r, dispatch_keydown v e w = dispatch_click r w.
Proof.
  unfold dispatch_keydown, run_callback.
  destruct v; cbv [keydown ContentJs.keydown Part000.keydown];
    destruct (altKey e && shiftKey e); try (by left);
    repeat (case_bool_decide; try (by left));
    cbv [bind getElementById get];
    match goal with
    | |- context [element_by_id ?i w] => destruct (element_by_id i w) as [r|]
    end;
    try (by left); right; exists r; reflexivity.
Qed.

Lemma keydown_consistent v e w : consistent v w → consistent v (dispatch_keydown v e w).
Proof.
  intros H. destruct (dispatch_keydown_cases v e w) as [-> | (r & ->)];
    [exact H | by apply click_consistent].
Qed.

(** A tick of the positioning loop writes one style, or nothing. *)
Lemma position_tick_cases Number_toString w :
  run_callback (ContentJs.positionLeftButton Number_toString) w = w ∨
  ∃ r s, run_callback (ContentJs.positionLeftButton Number_toString) w
         = set_lastLeftPos s (set_nodes (alter (with_style "left" s) r (nodes w)) w).
Proof.
  unfold run_callback. destruct (targetLeft_reads w) as [t Ht].
  rewrite positionLeftButton_unfold, Ht.
  destruct (element_by_id BTN_LEFT_ID w) as [r|]; [|by left].
  destruct (PrimFloat.ltb 0%float t); [|by left].
  destruct (bool_decide _); [|by left]. right. eauto.
Qed.

Lemma style_write_consistent v k s r w :
  consistent v w → consistent v (set_nodes (alter (with_style k s) r (nodes w)) w).
Proof.
  intros (H1 & H2 & H3 & H4).
  assert (∀ r', el_listeners <$> alter (with_style k s) r (nodes w) !! r'
                = el_listeners <$> nodes w !! r') as Hl.
  { intros r'. rewrite list_lookup_alter. destruct (decide (r = r')) as [->|]; [|done].
    by destruct (nodes w !! r'). }
  assert (∀ r', el_innerHTML <$> alter (with_style k s) r (nodes w) !! r'
                = el_innerHTML <$> nodes w !! r') as Hi.
  { intros r'. rewrite list_lookup_alter. destruct (decide (r = r')) as [->|]; [|done].
    by destruct (nodes w !! r'). }
  assert (∀ r' a, alter (with_style k s) r (nodes w) !! r' ≫= (fun e => el_attributes e !! a)
                  = nodes w !! r' ≫= (fun e => el_attributes e !! a)) as Ha.
  { intros r' a. rewrite list_lookup_alter. destruct (decide (r = r')) as [->|]; [|done].
    by destruct (nodes w !! r'). }
  split; [|split; [|split]].
  - intros r' e He. cbn [nodes set_nodes] in He.
    pose proof (Hl r') as Hl'. rewrite He in Hl'. cbn in Hl'.
    destruct (nodes w !! r') as [e0|] eqn:He0; [|done]. cbn in Hl'.
    injection Hl' as ->. by apply (H1 r').
  - intros f r1 r2. unfold control. cbn [nodes set_nodes]. rewrite !Hl. apply H2.
  - intros f r'. unfold control, reflects, innerHTML_of, attribute_of, body_has.
    cbn [nodes set_nodes body_classList]. rewrite Hl, Hi, !Ha. apply H3.
  - intros Ht r' e He. cbn [nodes set_nodes] in He.
    pose proof (Hl r') as Hl'. rewrite He in Hl'. cbn in Hl'.
    destruct (nodes w !! r') as [e0|] eqn:He0; [|done]. cbn in Hl'.
    injection Hl' as ->. by apply (H4 Ht r').
Qed.

Lemma position_tick_consistent v Number_toString w :
  consistent v w →
  consistent v (run_callback (ContentJs.positionLeftButton Number_toString) w).
Proof.
  intros H. destruct (position_tick_cases Number_toString w) as [-> | (r & s & ->)];
    [exact H|].
  apply (consistent_ext v (set_nodes (alter (with_style "left" s) r (nodes w)) w));
    [reflexivity | reflexivity | auto |].
  by apply style_write_consistent.
Qed.

(** The place of a flag among the flags of a version. *)
Lemma flags_lookup v i f : flags v !! i = Some f → i = flag_index f ∧ f ∈ flags v.
Proof.
  intros H. split; [|apply list_elem_of_lookup; eauto].
  destruct v; destruct i as [|[|[|i]]]; cbn in H; try discriminate H;
    injection H as <-; reflexivity.
Qed.

(** The controls after an injection into a bare page are the new buttons. *)
Lemma injected_controls v states w f r :
  bare w → control f r (injected v states w) →
  r = length (nodes w) + flag_index f ∧ f ∈ flags v.
Proof.
  intros Hb. unfold control. rewrite injected_nodes.
  destruct (decide (r < length (nodes w))) as [Hlt|Hge].
  - rewrite lookup_app_l by exact Hlt.
    destruct (nodes w !! r) as [e|] eqn:He; [|done]. cbn.
    rewrite (Hb r e He). discriminate.
  - rewrite lookup_app_r by lia. rewrite list_lookup_fmap.
    destruct (flags v !! (r - length (nodes w))) as [g|] eqn:Hg; [|done].
    cbn. intros [= ->]. destruct (flags_lookup v _ f Hg) as (Hi & Hf).
    split; [lia | exact Hf].
Qed.

Lemma injected_consistent v states w :
  bare w → waitForSlack w = None → consistent v (injected v states w).
Proof.
  intros Hb Hnone. split; [|split; [|split]].
  - intros r e. rewrite injected_nodes.
    destruct (decide (r < length (nodes w))) as [Hlt|Hge].
    + rewrite lookup_app_l by exact Hlt. intros He. left. by apply (Hb r e).
    + rewrite lookup_app_r by lia. rewrite list_lookup_fmap.
      destruct (flags v !! (r - length (nodes w))) as [g|] eqn:Hg; [|done].
      cbn. intros [= <-]. right. exists g.
      split; [by apply (flags_lookup v _ g Hg) | reflexivity].
  - intros f r r' H H'.
    destruct (injected_controls v states w f r Hb H) as (-> & _).
    by destruct (injected_controls v states w f r' Hb H') as (-> & _).
  - intros f r H.
    destruct (injected_controls v states w f r Hb H) as (-> & Hf).
    by apply injected_control.
  - unfold pending_is_bare. rewrite injected_waitForSlack, Hnone.
    intros [? ?]. discriminate.
Qed.

Lemma poll_tick_consistent v w :
  consistent v w → consistent v (run_callback (waitForSlack_tick v) w).
Proof.
  intros Hcons. unfold run_callback.
  destruct (waitForSlack w) as [p|] eqn:Hp.
  2: { by rewrite tick_idle. }
  rewrite (tick_running v w p Hp). cbv zeta.
  destruct (bool_decide _ || _).
  - set (w0 := set_waitForSlack None _).
    destruct (timeout_warning_fields (container_of w) (elapsed p + interval)%Z
                (injected v (collapsedStates p) w0)) as (Hc & Ht & Hn & _).
    apply (consistent_ext v (injected v (collapsedStates p) w0));
      [exact Hn | exact Hc | by rewrite Ht |].
    apply injected_consistent; [|reflexivity].
    destruct Hcons as (_ & _ & _ & H4). apply H4. rewrite Hp. eauto.
  - apply (consistent_ext v w); [reflexivity | reflexivity | | exact Hcons].
    intros _. rewrite Hp. eauto.
Qed.

Lemma step_consistent v Number_toString ev w :
  consistent v w → consistent v (step v Number_toString ev w).
Proof.
  intros H. destruct ev as [r | e | | | page]; cbn [step].
  - by apply click_consistent.
  - by apply keydown_consistent.
  - by apply poll_tick_consistent.
  - destruct v; [exact H | by apply position_tick_consistent].
  - by apply (consistent_ext v w).
Qed.



(** * What [getElementById] finds in the reachable states *)

Lemma find_ext_in {A} (P Q : A → bool) (l : list A) :
  (∀ x, x ∈ l → P x = Q x) → List.find P l = List.find Q l.
Proof.
  induction l as [|x l IH]; intros H; [reflexivity|]. cbn [List.find].
  rewrite (H x) by apply list_elem_of_here.
  destruct (Q x); [reflexivity|]. apply IH. intros y Hy. apply H.
  by apply list_elem_of_further.
Qed.

Lemma find_app_none {A} (P : A → bool) (l k : list A) :
  (∀ x, x ∈ l → P x = false) → List.find P (l ++ k) = List.find P k.
Proof.
  induction l as [|x l IH]; intros H; [reflexivity|]. cbn [app List.find].
  rewrite (H x) by apply list_elem_of_here. apply IH. intros y Hy. apply H.
  by apply list_elem_of_further.
Qed.

Lemma find_none_elem_of {A} (P : A → bool) (l : list A) :
  List.find P l = None → ∀ x, x ∈ l → P x = false.
Proof.
  intros H x Hx. apply (List.find_none P l H). by apply list_elem_of_In.
Qed.

(** [getElementById] looks at the children of the body and at the ids. *)
Lemma element_by_id_ext i w w' :
  body_children w' = body_children w →
  (∀ c, el_id <$> nodes w' !! c = el_id <$> nodes w !! c) →
  element_by_id i w' = element_by_id i w.
Proof.
  intros Hch Hid. unfold element_by_id. rewrite Hch.
  apply find_ext_in. intros c _. unfold has_id.
  pose proof (Hid c) as H.
  destruct (nodes w' !! c), (nodes w !! c); cbn in H; try done.
  by injection H as ->.
Qed.

Lemma painted_keeps_id f c e : el_id (painted f c e) = el_id e.
Proof. by destruct f. Qed.

Lemma dispatch_click_children f r w :
  control f r w → body_children (dispatch_click r w) = body_children w.
Proof.
  intros H. rewrite (dispatch_click_applied f r w H).
  destruct (setStoredState_same_document (STORAGE_KEY f)
              (negb (body_has (CLASS f) w))
              (applied f (negb (body_has (CLASS f) w)) (Some r) w)) as (_ & -> & _).
  apply applied_children.
Qed.

Lemma dispatch_click_element_by_id f r w i :
  control f r w → element_by_id i (dispatch_click r w) = element_by_id i w.
Proof.
  intros H. apply element_by_id_ext; [by apply (dispatch_click_children f)|].
  intros c. destruct (decide (r = c)) as [<-|Hne].
  - rewrite (dispatch_click_lookup f r w H).
    destruct (nodes w !! r) as [e|]; [|done]. cbn. by rewrite painted_keeps_id.
  - by rewrite (dispatch_click_lookup_ne f r c w H Hne).
Qed.

Lemma ids_ext v w w' :
  (∀ i, element_by_id i w' = element_by_id i w) →
  (∀ g r, control g r w' ↔ control g r w) →
  ids_reach_controls v w → ids_reach_controls v w'.
Proof.
  intros Hid Hc (HA & HB). split.
  - intros f r Hf. rewrite Hid, Hc. by apply HA.
  - intros (g & r & Hg) f Hf. rewrite Hid. apply HB; [|exact Hf].
    exists g, r. by apply Hc.
Qed.

Lemma click_ids v r w :
  consistent v w → ids_reach_controls v w → ids_reach_controls v (dispatch_click r w).
Proof.
  intros (H1 & _) Hids.
  destruct (nodes w !! r) as [e|] eqn:He.
  2: { rewrite dispatch_click_no_listener; [done | intros e; congruence]. }
  destruct (H1 r e He) as [Hl | (f & Hf & Hl)].
  { rewrite dispatch_click_no_listener; [done | intros e'; congruence]. }
  assert (control f r w) as Hc by (unfold control; rewrite He; cbn; by rewrite Hl).
  apply (ids_ext v w); [| |exact Hids].
  - intros i. by apply (dispatch_click_element_by_id f).
  - intros g r'. by apply (dispatch_click_control_iff f).
Qed.

Lemma style_write_control k s r w g r' :
  control g r' (set_nodes (alter (with_style k s) r (nodes w)) w) ↔ control g r' w.
Proof.
  unfold control. cbn [nodes set_nodes]. rewrite list_lookup_alter.
  destruct (decide (r = r')) as [->|]; [|done]. by destruct (nodes w !! r').
Qed.

Lemma position_tick_ids v Number_toString w :
  ids_reach_controls v w →
  ids_reach_controls v (run_callback (ContentJs.positionLeftButton Number_toString) w).
Proof.
  intros H. destruct (position_tick_cases Number_toString w) as [-> | (r & s & ->)];
    [exact H|].
  apply (ids_ext v w); [| |exact H].
  - intros i. apply (element_by_id_with_style i "left" s r w).
  - intros g r'. apply (style_write_control "left" s r w).
Qed.

(** The children of the body after the injection: the old ones, without
    the references of the new buttons, and then the new buttons in order. *)
Lemma injected_children_eq v states w :
  body_children (injected v states w)
  = filter (fun c => c < length (nodes w) ∨ length (nodes w) + length (flags v) ≤ c)
      (body_children w)
    ++ seq (length (nodes w)) (length (flags v)).
Proof.
  destruct v; cbv [injected injected2 injected3];
    rewrite !applied_children; unfold appended;
    cbn [body_children set_body_children];
    rewrite ?with_button_nodes, ?length_app; cbn [length flags seq];
    rewrite ?filter_app; cbn [app];
    rewrite ?filter_cons_True, ?filter_nil by lia;
    rewrite ?list_filter_filter, <- ?app_assoc; cbn [app];
    (f_equal; [apply list_filter_iff; intros c; lia | repeat f_equal; lia]).
Qed.

(** After the injection into a bare page without the ids of the script,
    each id leads to the new button of its flag. *)
Lemma injected_element_by_id v states w f :
  (∀ g, g ∈ flags v → element_by_id (BTN_ID g) w = None) →
  f ∈ flags v →
  element_by_id (BTN_ID f) (injected v states w)
  = Some (length (nodes w) + flag_index f).
Proof.
  intros Hnone Hf. unfold element_by_id. rewrite injected_children_eq.
  rewrite find_app_none.
  - assert (∀ g, g ∈ flags v →
              has_id (BTN_ID f) (injected v states w) (length (nodes w) + flag_index g)
              = bool_decide (g = f)) as Hid.
    { intros g Hg. unfold has_id. rewrite (injected_lookup v states w g Hg).
      unfold new_button. cbn [el_id]. rewrite painted_keeps_id. cbn [el_id].
      apply bool_decide_ext. split; [|by intros ->].
      destruct g, f; intros E; try reflexivity; discriminate E. }
    pose proof (Hid Top (flags_Top v)) as H0.
    pose proof (Hid Bottom (flags_Bottom v)) as H1.
    cbn [flag_index] in H0, H1.
    rewrite Nat.add_0_r in H0. rewrite Nat.add_1_r in H1.
    destruct (flags_cases v f Hf) as [-> | [-> | [-> ->]]];
      [destruct v | destruct v |]; cbn [flags length seq List.find flag_index];
      rewrite H0, ?H1; cbn [bool_decide decide_rel flag_eq_dec];
      try (f_equal; lia).
    pose proof (Hid Left flags_Left) as H2. cbn [flag_index] in H2.
    replace (length (nodes w) + 2) with (S (S (length (nodes w)))) in H2 by lia.
    rewrite H2. f_equal. lia.
  - intros c Hc. apply list_elem_of_filter in Hc as (Hrange & Hin).
    unfold has_id. rewrite injected_nodes.
    destruct Hrange as [Hlt | Hge].
    + rewrite lookup_app_l by exact Hlt.
      pose proof (find_none_elem_of _ _ (Hnone f Hf) c Hin) as H.
      unfold has_id in H. exact H.
    + rewrite lookup_ge_None_2; [reflexivity|].
      rewrite length_app, length_map. lia.
Qed.

Lemma same_nodes_ids v w w' :
  nodes w' = nodes w → body_children w' = body_children w →
  ids_reach_controls v w → ids_reach_controls v w'.
Proof.
  intros Hn Hch. apply ids_ext.
  - intros i. apply element_by_id_ext; [exact Hch | by rewrite Hn].
  - intros g r. unfold control. by rewrite Hn.
Qed.

Lemma injected_ids v states w :
  bare w → ids_reach_controls v w → ids_reach_controls v (injected v states w).
Proof.
  intros Hb (HA & _).
  assert (∀ g, g ∈ flags v → element_by_id (BTN_ID g) w = None) as Hnone.
  { intros g Hg. destruct (element_by_id (BTN_ID g) w) as [r|] eqn:Hr; [|done].
    destruct (bare_no_control w g r Hb (HA g r Hg Hr)). }
  split.
  - intros f r Hf. rewrite (injected_element_by_id v states w f Hnone Hf).
    intros [= <-]. by apply injected_control.
  - intros _ f Hf. rewrite (injected_element_by_id v states w f Hnone Hf). eauto.
Qed.

Lemma poll_tick_ids v w :
  consistent v w → ids_reach_controls v w →
  ids_reach_controls v (run_callback (waitForSlack_tick v) w).
Proof.
  intros (_ & _ & _ & H4) Hids. unfold run_callback.
  destruct (waitForSlack w) as [p|] eqn:Hp.
  2: { by rewrite tick_idle. }
  rewrite (tick_running v w p Hp). cbv zeta.
  destruct (bool_decide _ || _).
  - set (w0 := set_waitForSlack None _).
    destruct (timeout_warning_fields (container_of w) (elapsed p + interval)%Z
                (injected v (collapsedStates p) w0)) as (_ & _ & Hn & Hch).
    apply (same_nodes_ids v (injected v (collapsedStates p) w0)); [exact Hn | exact Hch |].
    apply injected_ids.
    + apply H4. rewrite Hp. eauto.
    + by apply (same_nodes_ids v w).
  - by apply (same_nodes_ids v w).
Qed.

Lemma step_ids v Number_toString ev w :
  consistent v w → ids_reach_controls v w →
  ids_reach_controls v (step v Number_toString ev w).
Proof.
  intros Hc H. destruct ev as [r | e | | | page]; cbn [step].
  - by apply click_ids.
  - unfold dispatch_keydown.
    destruct (dispatch_keydown_cases v e w) as [Hk | (r & Hk)];
      unfold dispatch_keydown in Hk; rewrite Hk; [exact H | by apply click_ids].
  - by apply poll_tick_ids.
  - destruct v; [exact H | by apply position_tick_ids].
  - by apply (same_nodes_ids v w).
Qed.

(** X15. What the shortcuts find.  Start from a page on which no element
    carries a click listener of the script and no child of the body has an id
    of the script, let [init] run, and let clicks, key presses, timer ticks
    and re-renderings of the host page happen in any order.  In every state
    reached, whatever [getElementById] finds under the id of a flag is a
    control of that flag; and as soon as the controls are injected it finds
    one under the id of every flag of the script. *)
Theorem shortcuts_reach_controls (v : variant) (Number_toString : float → string)
    (w0 : world) (evs : list event) :
  bare w0 →
  (∀ f, f ∈ flags v → element_by_id (BTN_ID f) w0 = None) →
  ids_reach_controls v (run v Number_toString evs (run_init v w0)).
Proof.
  intros Hb Hnone.
  destruct (run_init_fields v w0) as (Hn & _ & Hch).
  assert (consistent v (run_init v w0)) as Hc0.
  { apply bare_consistent. unfold bare. rewrite Hn. exact Hb. }
  assert (ids_reach_controls v (run_init v w0)) as Hi0.
  { apply (same_nodes_ids v w0); [exact Hn | exact Hch |]. split.
    - intros f r Hf Hr. rewrite (Hnone f Hf) in Hr. discriminate Hr.
    - intros (g & r & Hg). destruct (bare_no_control w0 g r Hb Hg). }
  assert (∀ w, consistent v w → ids_reach_controls v w →
            ids_reach_controls v (run v Number_toString evs w)) as Hrun.
  { unfold run. induction evs as [|ev evs IH]; intros w Hc Hi; [exact Hi|].
    cbn [foldl]. apply IH; [by apply step_consistent | by apply step_ids]. }
  by apply Hrun.
Qed.

Lemma shortcuts_reach_controls_witness :
  element_by_id BTN_LEFT_ID
    (run ThreeToggle (fun _ => "316")
       [HostChange slack_page; PollTick; Click 1; PositionTick; Click 2]
       (run_init ThreeToggle blank_world)) = Some 2 ∧
  control Left 2
    (run ThreeToggle (fun _ => "316")
       [HostChange slack_page; PollTick; Click 1; PositionTick; Click 2]
       (run_init ThreeToggle blank_world)).
Proof.
  assert (bare blank_world) as Hb by (intros r e He; discriminate He).
  destruct (shortcuts_reach_controls ThreeToggle (fun _ => "316") blank_world
              [HostChange slack_page; PollTick; Click 1; PositionTick; Click 2] Hb)
    as (HA & _).
  { intros f _. reflexivity. }
  assert (element_by_id BTN_LEFT_ID
            (run ThreeToggle (fun _ => "316")
               [HostChange slack_page; PollTick; Click 1; PositionTick; Click 2]
               (run_init ThreeToggle blank_world)) = Some 2) as Hr
    by (vm_compute; reflexivity).
  split; [exact Hr|]. apply (HA Left 2 flags_Left Hr).
Defined.

(** * The footprint of the script *)

Lemma foreign_same_refl w : foreign_same w w.
Proof. by split. Qed.

Lemma foreign_same_trans w1 w2 w3 :
  foreign_same w1 w2 → foreign_same w2 w3 → foreign_same w1 w3.
Proof.
  intros (Hc & Hs) (Hc' & Hs'). split.
  - intros cls H. by rewrite Hc', Hc.
  - intros key H. destruct (Hs key H) as (<- & <-). by apply Hs'.
Qed.

(** Worlds with the same classes and stores. *)
Lemma foreign_same_fields w w' :
  body_classList w' = body_classList w → chrome_local w' = chrome_local w →
  localStorage w' = localStorage w → foreign_same w w'.
Proof. intros Hc Hl Hs. unfold foreign_same, body_has. by rewrite Hc, Hl, Hs. Qed.

Lemma listener_foreign f r w : foreign_same w (run_callback (listener f r) w).
Proof.
  unfold run_callback at 1. rewrite listener_applied.
  set (v := negb (body_has (CLASS f) w)).
  change (foreign_same w (run_callback (setStoredState (STORAGE_KEY f) v)
                            (applied f v (Some r) w))).
  destruct (setStoredState_same_document (STORAGE_KEY f) v (applied f v (Some r) w))
    as (Hc & _).
  destruct (applied_storage f v (Some r) w) as (_ & _ & Hl & Hs).
  split.
  - intros cls H. unfold body_has at 1. rewrite Hc.
    by apply applied_body_has_ne.
  - intros key H.
    destruct (setStoredState_other_keys (STORAGE_KEY f) key v
                (applied f v (Some r) w) (H f)) as (-> & ->).
    by rewrite Hl, Hs.
Qed.

Lemma dispatch_click_foreign r w : foreign_same w (dispatch_click r w).
Proof.
  unfold dispatch_click. destruct (nodes w !! r) as [e|]; [|apply foreign_same_refl].
  generalize (el_listeners e). intros l. revert w.
  induction l as [|f l IH]; intros w; [apply foreign_same_refl|].
  cbn [foldl]. eapply foreign_same_trans; [apply (listener_foreign f r)|apply IH].
Qed.

Lemma injected_storage v states w :
  chrome_local (injected v states w) = chrome_local w ∧
  localStorage (injected v states w) = localStorage w.
Proof.
  destruct v; cbv [injected injected2 injected3];
    repeat match goal with
    | |- context [chrome_local (applied ?f ?c ?b ?x)] =>
        destruct (applied_storage f c b x) as (_ & _ & -> & ->)
    end; done.
Qed.

Lemma with_button_foreign_class f c w cls :
  (∀ g, cls ≠ CLASS g) → body_has cls (with_button f c w) = body_has cls w.
Proof. intros H. by apply with_button_body_has_ne. Qed.

Lemma appended_body_has r w cls : body_has cls (appended r w) = body_has cls w.
Proof. reflexivity. Qed.

Lemma injected_foreign v states w : foreign_same w (injected v states w).
Proof.
  destruct (injected_storage v states w) as (Hl & Hs). split.
  - intros cls H.
    destruct v; cbv [injected injected2 injected3];
      rewrite !applied_body_has_ne by apply H;
      rewrite !appended_body_has;
      rewrite !with_button_body_has_ne by apply H; reflexivity.
  - intros key _. by rewrite Hl, Hs.
Qed.

Lemma poll_tick_foreign v w : foreign_same w (run_callback (waitForSlack_tick v) w).
Proof.
  unfold run_callback. destruct (waitForSlack w) as [p|] eqn:Hp.
  2: { rewrite tick_idle by exact Hp. apply foreign_same_refl. }
  rewrite (tick_running v w p Hp). cbv zeta.
  destruct (bool_decide _ || _).
  - set (w0 := set_waitForSlack None _).
    eapply (foreign_same_trans _ (injected v (collapsedStates p) w0)).
    + eapply (foreign_same_trans _ w0);
        [by apply foreign_same_fields | apply injected_foreign].
    + unfold timeout_warning. destruct (_ && _); [|apply foreign_same_refl].
      by apply foreign_same_fields.
  - by apply foreign_same_fields.
Qed.

Lemma step_foreign v Number_toString ev w :
  foreign_same w (step v Number_toString ev w).
Proof.
  destruct ev as [r | e | | | page]; cbn [step].
  - apply dispatch_click_foreign.
  - destruct (dispatch_keydown_cases v e w) as [-> | (r & ->)];
      [apply foreign_same_refl | apply dispatch_click_foreign].
  - apply poll_tick_foreign.
  - destruct v; [apply foreign_same_refl|].
    destruct (position_tick_cases Number_toString w) as [-> | (r & s & ->)];
      [apply foreign_same_refl | by apply foreign_same_fields].
  - by apply foreign_same_fields.
Qed.

(** X16. The footprint of the script on the page and on the stores.  From
    any page, through [init] and any sequence of clicks (on any element), key
    presses, timer ticks and host re-renderings, the body keeps every class
    that is not one of the three marker classes and gains no such class, and
    both stores keep every entry under a key that is not one of the three
    storage keys. *)
Theorem script_footprint (v : variant) (Number_toString : float → string)
    (w0 : world) (evs : list event) :
  foreign_same w0 (run v Number_toString evs (run_init v w0)).
Proof.
  assert (foreign_same w0 (run_init v w0)) as H0.
  { destruct (run_init_shape v w0) as (c & t & ->). by apply foreign_same_fields. }
  revert H0. generalize (run_init v w0). unfold run.
  induction evs as [|ev evs IH]; intros w Hw; [exact Hw|].
  cbn [foldl]. apply IH.
  eapply foreign_same_trans; [exact Hw | apply step_foreign].
Qed.

(** The theme class of the sample page is still there, and no entry
    appears under a key that is not the script's, after a session. *)
Example footprint_on_sample_page :
  let w := run ThreeToggle (fun _ => "316")
             [HostChange slack_page; PollTick; Click 0; Click 2; PositionTick]
             (run_init ThreeToggle blank_world) in
  body_classList w = ["theme-dark"; CLASS_TOP; CLASS_LEFT] ∧
  chrome_local w
  = <[STORAGE_KEY_LEFT := JSBool true]> (<[STORAGE_KEY_TOP := JSBool true]> ∅).
Proof. split; vm_compute; reflexivity. Qed.

(** * The script changes its own buttons only *)

Lemma keeps_elements_length old w : keeps_elements old w → length old ≤ length (nodes w).
Proof.
  intros (K1 & _). destruct old as [|e old]; [cbn; lia|].
  assert (length old < length (e :: old)) as Hlt by (cbn; lia).
  pose proof (K1 _ Hlt) as H.
  assert (is_Some ((e :: old) !! length old)) as Hs by (apply lookup_lt_is_Some_2; cbn; lia).
  rewrite <- H in Hs. apply lookup_lt_is_Some_1 in Hs. cbn. lia.
Qed.

Lemma keeps_elements_ext old w w' :
  nodes w' = nodes w → keeps_elements old w → keeps_elements old w'.
Proof. intros Hn. unfold keeps_elements, control. by rewrite Hn. Qed.

Lemma click_keeps_elements v old r w :
  consistent v w → keeps_elements old w → keeps_elements old (dispatch_click r w).
Proof.
  intros (H1 & _) (K1 & K2).
  destruct (nodes w !! r) as [e|] eqn:He.
  2: { rewrite dispatch_click_no_listener; [done | intros e; congruence]. }
  destruct (H1 r e He) as [Hl | (f & Hf & Hl)].
  { rewrite dispatch_click_no_listener; [done | intros e'; congruence]. }
  assert (control f r w) as Hc by (unfold control; rewrite He; cbn; by rewrite Hl).
  pose proof (K2 f r Hc) as Hge. split.
  - intros r' Hr'. rewrite (dispatch_click_lookup_ne f r r' w Hc) by lia. by apply K1.
  - intros g r' Hg. apply (dispatch_click_control_iff f g r r' w Hc) in Hg.
    by apply (K2 g).
Qed.

(** A tick of the positioning loop that writes, writes to the element
    found under the id of the left button. *)
Lemma position_tick_cases_id Number_toString w :
  run_callback (ContentJs.positionLeftButton Number_toString) w = w ∨
  ∃ r s, element_by_id BTN_LEFT_ID w = Some r ∧
         run_callback (ContentJs.positionLeftButton Number_toString) w
         = set_lastLeftPos s (set_nodes (alter (with_style "left" s) r (nodes w)) w).
Proof.
  unfold run_callback. destruct (targetLeft_reads w) as [t Ht].
  rewrite positionLeftButton_unfold, Ht.
  destruct (element_by_id BTN_LEFT_ID w) as [r|]; [|by left].
  destruct (PrimFloat.ltb 0%float t); [|by left].
  destruct (bool_decide _); [|by left]. right. eauto.
Qed.

Lemma position_tick_keeps_elements old Number_toString w :
  ids_reach_controls ThreeToggle w → keeps_elements old w →
  keeps_elements old (run_callback (ContentJs.positionLeftButton Number_toString) w).
Proof.
  intros (HA & _) (K1 & K2).
  destruct (position_tick_cases_id Number_toString w) as [-> | (r & s & Hr & ->)];
    [done|].
  pose proof (K2 Left r (HA Left r flags_Left Hr)) as Hge. split.
  - intros r' Hr'. cbn [nodes set_lastLeftPos set_nodes].
    rewrite list_lookup_alter_ne by lia. by apply K1.
  - intros g r' Hg.
    change (control g r' (set_nodes (alter (with_style "left" s) r (nodes w)) w)) in Hg.
    apply style_write_control in Hg. by apply (K2 g).
Qed.

Lemma poll_tick_keeps_elements v old w :
  consistent v w → keeps_elements old w →
  keeps_elements old (run_callback (waitForSlack_tick v) w).
Proof.
  intros (_ & _ & _ & H4) K. pose proof (keeps_elements_length old w K) as Hlen.
  unfold run_callback. destruct (waitForSlack w) as [p|] eqn:Hp.
  2: { by rewrite tick_idle. }
  rewrite (tick_running v w p Hp). cbv zeta.
  destruct (bool_decide _ || _); [|by apply (keeps_elements_ext old w)].
  set (w0 := set_waitForSlack None _).
  destruct (timeout_warning_fields (container_of w) (elapsed p + interval)%Z
              (injected v (collapsedStates p) w0)) as (_ & _ & Hn & _).
  apply (keeps_elements_ext old (injected v (collapsedStates p) w0)); [exact Hn|].
  assert (bare w0) as Hb by (apply H4; rewrite Hp; eauto).
  destruct K as (K1 & K2). split.
  - intros r Hr. rewrite injected_nodes.
    rewrite lookup_app_l by (change (nodes w0) with (nodes w); lia). by apply K1.
  - intros f r Hf. destruct (injected_controls v (collapsedStates p) w0 f r Hb Hf) as (-> & _).
    change (nodes w0) with (nodes w). lia.
Qed.

(** X17. The script changes its own buttons only.  Start from a page on
    which no element carries a click listener of the script and no child of
    the body has an id of the script.  Through [init] and any sequence of
    clicks on any element, key presses, timer ticks and host re-renderings,
    every element that was there at the start is in the store exactly as it
    was: tag, id, classes, content, attributes and styles. *)
Theorem page_elements_untouched (v : variant) (Number_toString : float → string)
    (w0 : world) (evs : list event) (r : nat) (e : element) :
  bare w0 →
  (∀ f, f ∈ flags v → element_by_id (BTN_ID f) w0 = None) →
  nodes w0 !! r = Some e →
  nodes (run v Number_toString evs (run_init v w0)) !! r = Some e.
Proof.
  intros Hb Hnone He.
  destruct (run_init_fields v w0) as (Hn & _ & Hch).
  assert (consistent v (run_init v w0)) as Hc0.
  { apply bare_consistent. unfold bare. rewrite Hn. exact Hb. }
  assert (ids_reach_controls v (run_init v w0)) as Hi0.
  { apply (same_nodes_ids v w0); [exact Hn | exact Hch |]. split.
    - intros f r' Hf Hr. rewrite (Hnone f Hf) in Hr. discriminate Hr.
    - intros (g & r' & Hg). destruct (bare_no_control w0 g r' Hb Hg). }
  assert (keeps_elements (nodes w0) (run_init v w0)) as Hk0.
  { split; [intros r' _; by rewrite Hn|].
    intros f r' Hf. unfold control in Hf. rewrite Hn in Hf.
    destruct (bare_no_control w0 f r' Hb Hf). }
  assert (∀ w, consistent v w → ids_reach_controls v w → keeps_elements (nodes w0) w →
            keeps_elements (nodes w0) (run v Number_toString evs w)) as Hrun.
  { unfold run. induction evs as [|ev evs IH]; intros w Hc Hi Hk; [exact Hk|].
    cbn [foldl]. apply IH;
      [by apply step_consistent | by apply step_ids |].
    destruct ev as [r' | e' | | | page]; cbn [step].
    - by apply (click_keeps_elements v).
    - destruct (dispatch_keydown_cases v e' w) as [-> | (r' & ->)];
        [exact Hk | by apply (click_keeps_elements v)].
    - by apply poll_tick_keeps_elements.
    - destruct v; [exact Hk | by apply position_tick_keeps_elements].
    - by apply (keeps_elements_ext (nodes w0) w). }
  destruct (Hrun _ Hc0 Hi0 Hk0) as (K1 & _).
  rewrite K1; [exact He|]. by apply lookup_lt_Some in He.
Qed.

Lemma page_elements_untouched_witness :
  nodes (run ThreeToggle (fun _ => "316")
           [PollTick; Click 0; Click 1; Keydown (KeyEvent true true "l" false);
            PositionTick; Click 3]
           (run_init ThreeToggle hosted_world)) !! 0
  = Some (Element "div" "root" "p-client_container" "" "<main></main>" ∅ ∅ []).
Proof.
  apply (page_elements_untouched ThreeToggle (fun _ => "316") hosted_world).
  - intros r e He. destruct r as [|r]; cbn in He.
    + by injection He as <-.
    + discriminate He.
  - intros f _. destruct f; vm_compute; reflexivity.
  - reflexivity.
Defined.

(** * The button constructors *)

(** X18. What a button constructor leaves behind.  [createTopButton],
    [createBottomButton] and [createLeftButton] return a new element at the
    end of the store that is not yet a child of the body; every element that
    was there is unchanged; the new element is a control of its flag with the
    id of the flag and type button, and already shows the state it was
    created for, which the constructor has also applied to the marker class
    of the body. *)
Theorem createButton_spec (f : flag) (c : bool) (w : world) :
  ∃ w',
    createButton f c w = Normal (length (nodes w)) w' ∧
    nodes w' = nodes w ++ [new_button f c] ∧
    body_children w' = body_children w ∧
    control f (length (nodes w)) w' ∧
    reflects f (length (nodes w)) w' ∧
    body_has (CLASS f) w' = c ∧
    (∀ cls, cls ≠ CLASS f → body_has cls w' = body_has cls w) ∧
    (el_id <$> nodes w' !! length (nodes w) = Some (BTN_ID f) ∧
     el_type <$> nodes w' !! length (nodes w) = Some "button" ∧
     el_tagName <$> nodes w' !! length (nodes w) = Some "button").
Proof.
  exists (with_button f c w).
  assert (nodes (with_button f c w) !! length (nodes w) = Some (new_button f c)) as Hl.
  { rewrite with_button_nodes. apply list_lookup_middle. reflexivity. }
  split; [apply createButton_eq|].
  split; [apply with_button_nodes|].
  split; [reflexivity|].
  split; [unfold control; by rewrite Hl|].
  split.
  { unfold reflects, innerHTML_of, attribute_of.
    rewrite Hl, with_button_body_has. unfold new_button.
    cbn [fmap option_fmap option_map mbind option_bind el_innerHTML el_attributes].
    rewrite painted_innerHTML, !painted_attributes by auto. done. }
  split; [apply with_button_body_has|].
  split; [intros cls Hcls; by apply with_button_body_has_ne|].
  rewrite Hl. unfold new_button. cbn. by destruct f.
Qed.

(** The three constructors on the sample page. *)
Example createLeftButton_on_blank_page :
  ∃ w', createLeftButton true blank_world = Normal 0 w' ∧
        body_classList w' = ["theme-dark"; CLASS_LEFT] ∧
        body_children w' = [] ∧
        innerHTML_of 0 w' = Some ICON_RIGHT ∧
        style_of 0 "top" w' = Some "50%".
Proof. eexists. split; [reflexivity|]. repeat split; vm_compute; reflexivity. Qed.
